(** * CudaArray: a device-memory buffer of the CUDA platform

    A shallow embedding of [platforms/cuda/src/CudaArray.cpp].  The member
    functions of [CudaArray] are written in a small state-and-exception
    monad whose state is the object itself ([this]) together with the world
    around it: the CUDA driver, the stack of contexts that [ContextSelector]
    objects have made current, and a log of every call that leaves the
    class.  A thrown exception keeps the state reached so far, as a C++
    exception leaves the members of [*this] the way the statements before
    the [throw] left them. *)

From Stdlib Require Import ZArith List String Bool Lia DecimalString.
Import ListNotations.
Local Open Scope Z_scope.

(** ** Machine integers

    [int] is 32 bits wide and signed; [size_t] and [CUdeviceptr] are 64 bits
    wide and unsigned.  Signed overflow is undefined in C++; the model takes
    the two's complement result. *)

Definition wrap_int (z : Z) : Z := (z + 2 ^ 31) mod 2 ^ 32 - 2 ^ 31.
Definition to_size_t (z : Z) : Z := z mod 2 ^ 64.

Definition is_int (z : Z) : Prop := - 2 ^ 31 <= z < 2 ^ 31.
Definition is_size_t (z : Z) : Prop := 0 <= z < 2 ^ 64.

(** A value together with its C++ type, for the one comparison of the file
    that mixes types. *)
Inductive CType := CInt | CSizeT.
Inductive cval := VInt (z : Z) | VSizeT (z : Z).

(** [lhs > rhs] for an [int] left operand: a [size_t] right operand pulls
    the left one to [size_t] (usual arithmetic conversions). *)
Definition int_gt (lhs : Z) (rhs : cval) : bool :=
  match rhs with
  | VInt r => r <? lhs
  | VSizeT r => r <? to_size_t lhs
  end.

(** [operator<<] on an integer. *)
Definition string_of_Z (z : Z) : string := NilZero.string_of_int (Z.to_int z).

(** ** The CUDA driver and the compute context *)

Definition CUresult := Z.
Definition CUDA_SUCCESS : CUresult := 0.
Definition CUdeviceptr := Z.
Definition CUstream := Z.
(** A host address ([void*]). *)
Definition HostPtr := Z.
(** A [CudaContext*]. *)
Definition CudaContextRef := nat.

(** A [ComputeContext&] is a [CudaContext] or belongs to another platform. *)
Inductive ComputeContext :=
| IsCudaContext (c : CudaContextRef)
| OtherContext.

(** The driver entry points the file calls, with their arguments. *)
Inductive DriverCall :=
| cuMemAlloc (bytesize : Z)
| cuMemFree (dptr : CUdeviceptr)
| cuMemcpyHtoD (dst : CUdeviceptr) (src : HostPtr) (bytes : Z)
| cuMemcpyHtoDAsync (dst : CUdeviceptr) (src : HostPtr) (bytes : Z) (stream : CUstream)
| cuMemcpyDtoH (dst : HostPtr) (src : CUdeviceptr) (bytes : Z)
| cuMemcpyDtoHAsync (dst : HostPtr) (src : CUdeviceptr) (bytes : Z) (stream : CUstream)
| cuMemcpyDtoDAsync (dst : CUdeviceptr) (src : CUdeviceptr) (bytes : Z) (stream : CUstream).

(** What a driver call gives back: its status and, for [cuMemAlloc], what it
    stored through its out-parameter ([None]: it stored nothing). *)
Record Reply := mkReply { status : CUresult; stored : option CUdeviceptr }.

(** A driver is a state machine: a call is answered from the driver's state
    and moves it on. *)
Definition Driver (D : Type) : Type := D -> DriverCall -> Reply * D.

Inductive exception :=
| OpenMMException (what : string)
| bad_cast
| unwrap_failure.

(** ** The object

    The members are declared in CudaArray.h; each has the type of what the
    file stores into it: [pointer] is the [CUdeviceptr] that [cuMemAlloc]
    fills, [size] the [size_t] and [elementSize] the [int] that [initialize]
    receives. *)

Record CudaArray := mkCudaArray {
  context : CudaContextRef;
  pointer : CUdeviceptr;
  size : Z;
  elementSize : Z;
  ownsMemory : bool;
  name : string
}.

Definition set_context (c : CudaContextRef) (a : CudaArray) : CudaArray :=
  mkCudaArray c (pointer a) (size a) (elementSize a) (ownsMemory a) (name a).
Definition set_pointer (p : CUdeviceptr) (a : CudaArray) : CudaArray :=
  mkCudaArray (context a) p (size a) (elementSize a) (ownsMemory a) (name a).
Definition set_size (n : Z) (a : CudaArray) : CudaArray :=
  mkCudaArray (context a) (pointer a) n (elementSize a) (ownsMemory a) (name a).
Definition set_elementSize (n : Z) (a : CudaArray) : CudaArray :=
  mkCudaArray (context a) (pointer a) (size a) n (ownsMemory a) (name a).
Definition set_ownsMemory (b : bool) (a : CudaArray) : CudaArray :=
  mkCudaArray (context a) (pointer a) (size a) (elementSize a) b (name a).
Definition set_name (s : string) (a : CudaArray) : CudaArray :=
  mkCudaArray (context a) (pointer a) (size a) (elementSize a) (ownsMemory a) s.

(** An [ArrayInterface&]: a [CudaArray] (directly or behind a wrapper), or
    an array of another platform, of which only the interface is known. *)
Inductive ArrayInterface :=
| OfCudaArray (a : CudaArray)
| OfOtherPlatform (sz : Z) (elsz : Z) (nm : string).

Definition getSize_of (d : ArrayInterface) : Z :=
  match d with OfCudaArray a => size a | OfOtherPlatform sz _ _ => sz end.
Definition getElementSize_of (d : ArrayInterface) : Z :=
  match d with OfCudaArray a => elementSize a | OfOtherPlatform _ elsz _ => elsz end.
Definition getName_of (d : ArrayInterface) : string :=
  match d with OfCudaArray a => name a | OfOtherPlatform _ _ nm => nm end.

(** ** The world and the monad *)

(** What leaves the class, in the order it happens. *)
Inductive Event :=
| Select (c : CudaContextRef)
| Deselect
| Call (c : DriverCall)
| Unwrap (d : ArrayInterface).

Record World (D : Type) := mkWorld {
  driver : D;
  current : list CudaContextRef;
  log : list Event;
  contextIsValid : CudaContextRef -> bool;
  currentStream : CudaContextRef -> CUstream
}.
Arguments mkWorld {D}.
Arguments driver {D}.
Arguments current {D}.
Arguments log {D}.
Arguments contextIsValid {D}.
Arguments currentStream {D}.

Inductive Outcome (A : Type) :=
| Returned (a : A)
| Thrown (e : exception).
Arguments Returned {A}.
Arguments Thrown {A}.

Definition M (D A : Type) : Type :=
  CudaArray -> World D -> Outcome A * CudaArray * World D.

Definition ret {D A} (a : A) : M D A := fun this w => (Returned a, this, w).

Definition bind {D A B} (m : M D A) (k : A -> M D B) : M D B :=
  fun this w =>
    match m this w with
    | (Returned a, this', w') => k a this' w'
    | (Thrown e, this', w') => (Thrown e, this', w')
    end.

Definition throw {D A} (e : exception) : M D A := fun this w => (Thrown e, this, w).

Definition read {D A} (f : CudaArray -> A) : M D A := fun this w => (Returned (f this), this, w).
Definition assign {D} (f : CudaArray -> CudaArray) : M D unit :=
  fun this w => (Returned tt, f this, w).
Definition emit {D} (e : Event) : M D unit :=
  fun this w =>
    (Returned tt, this,
     mkWorld (driver w) (current w) (log w ++ [e]) (contextIsValid w) (currentStream w)).

Declare Scope cpp_scope.
Delimit Scope cpp_scope with cpp.
Notation "x <- m ;; k" := (bind m (fun x => k))
  (at level 100, m at next level, right associativity) : cpp_scope.
Notation "m ;; k" := (bind m (fun _ => k))
  (at level 100, right associativity) : cpp_scope.
Local Open Scope cpp_scope.

(** [if (c) throw e;] *)
Definition throw_if {D} (c : bool) (e : exception) : M D unit :=
  if c then throw e else ret tt.

Section Members.

Context {D : Type}.
(** The driver the program is linked against. *)
Variable drv : Driver D.
(** [CudaContext::getErrorString], declared in CudaContext.h. *)
Variable getErrorString : CUresult -> string.
(** The return type of [getSize()], declared in CudaArray.h. *)
Variable getSize_t : CType.

(** One call into the driver: logged, answered, and the driver moved on. *)
Definition driverCall (c : DriverCall) : M D Reply :=
  fun this w =>
    let (r, d') := drv (driver w) c in
    (Returned r, this,
     mkWorld d' (current w) (log w ++ [Call c]) (contextIsValid w) (currentStream w)).

Definition getContextIsValid (c : CudaContextRef) : M D bool :=
  fun this w => (Returned (contextIsValid w c), this, w).

Definition getCurrentStream (c : CudaContextRef) : M D CUstream :=
  fun this w => (Returned (currentStream w c), this, w).

(** Modelled from the spec: [ContextSelector] (openmm/common/ContextSelector.h
    is not among the sources).  "On construction makes a given context
    current, on scope exit restores the previously current context
    unconditionally (including on the error path)." *)
Definition ContextSelector {A} (c : CudaContextRef) (scope : M D A) : M D A :=
  fun this w =>
    let w1 := mkWorld (driver w) (c :: current w) (log w ++ [Select c])
                (contextIsValid w) (currentStream w) in
    match scope this w1 with
    | (r, this2, w2) =>
        (r, this2,
         mkWorld (driver w2) (tl (current w2)) (log w2 ++ [Deselect])
           (contextIsValid w2) (currentStream w2))
    end.

(** Modelled from the spec: [CudaContext::unwrap] (CudaContext.cpp is not
    among the sources).  "Downcasts a generic buffer-interface value to this
    core's concrete type, failing if the buffer belongs to a different
    backend." *)
Definition unwrap (c : CudaContextRef) (dest : ArrayInterface) : M D CudaArray :=
  emit (Unwrap dest);;
  match dest with
  | OfCudaArray a => ret a
  | OfOtherPlatform _ _ _ => throw unwrap_failure
  end.

(** [dynamic_cast<CudaContext&>(context)] *)
Definition dynamic_cast_CudaContext (c : ComputeContext) : M D CudaContextRef :=
  match c with
  | IsCudaContext r => ret r
  | OtherContext => throw bad_cast
  end.

(** [str<<what<<name<<": "<<getErrorString(result)<<" ("<<result<<")"] *)
Definition driverError (what : string) (name_ : string) (result : CUresult) : exception :=
  OpenMMException
    (what ++ name_ ++ ": " ++ getErrorString result ++ " (" ++ string_of_Z result ++ ")")%string.

Definition failed (r : Reply) : bool := negb (status r =? CUDA_SUCCESS).

(** [cuMemAlloc(&pointer, bytesize)] *)
Definition cuMemAlloc_pointer (bytesize : Z) : M D Reply :=
  r <- driverCall (cuMemAlloc bytesize);;
  match stored r with
  | Some p => assign (set_pointer p)
  | None => ret tt
  end;;
  ret r.

(** [CudaArray::~CudaArray()] *)
Definition destroy : M D unit :=
  this <- read id;;
  valid <- (if negb (pointer this =? 0) && ownsMemory this
            then getContextIsValid (context this) else ret false);;
  if valid then
    ContextSelector (context this)
      (result <- driverCall (cuMemFree (pointer this));;
       throw_if (failed result)
         (driverError "Error deleting array " (name this) (status result)))
  else ret tt.

(** [void CudaArray::initialize(ComputeContext&, size_t, int, const std::string&)] *)
Definition initialize (context_ : ComputeContext) (size_ : Z) (elementSize_ : Z)
    (name_ : string) : M D unit :=
  p <- read pointer;;
  throw_if (negb (p =? 0)) (OpenMMException "CudaArray has already been initialized");;
  c <- dynamic_cast_CudaContext context_;;
  assign (set_context c);;
  assign (set_size size_);;
  assign (set_elementSize elementSize_);;
  assign (set_name name_);;
  assign (set_ownsMemory true);;
  ContextSelector c
    (result <- cuMemAlloc_pointer (to_size_t (size_ * elementSize_));;
     throw_if (failed result)
       (driverError "Error creating array " name_ (status result))).

(** [void CudaArray::resize(size_t)] *)
Definition resize (size_ : Z) : M D unit :=
  p <- read pointer;;
  throw_if (p =? 0) (OpenMMException "CudaArray has not been initialized");;
  owns <- read ownsMemory;;
  throw_if (negb owns)
    (OpenMMException "Cannot resize an array that does not own its storage");;
  c <- read context;;
  ContextSelector c
    (this <- read id;;
     result <- driverCall (cuMemFree (pointer this));;
     throw_if (failed result)
       (driverError "Error deleting array " (name this) (status result));;
     assign (set_pointer 0);;
     this <- read id;;
     initialize (IsCudaContext (context this)) size_ (elementSize this) (name this)).

(** [getSize()], at the type its declaration gives it. *)
Definition getSize (this : CudaArray) : cval :=
  match getSize_t with
  | CInt => VInt (wrap_int (size this))
  | CSizeT => VSizeT (size this)
  end.

(** [ComputeContext& CudaArray::getContext()] *)
Definition getContext (this : CudaArray) : ComputeContext :=
  IsCudaContext (context this).

(** [void CudaArray::uploadSubArray(const void*, int, int, bool)] *)
Definition uploadSubArray (data : HostPtr) (offset elements : Z) (blocking : bool)
    : M D unit :=
  this <- read id;;
  throw_if (pointer this =? 0) (OpenMMException "CudaArray has not been initialized");;
  throw_if ((offset <? 0) || int_gt (wrap_int (offset + elements)) (getSize this))
    (OpenMMException "uploadSubArray: data exceeds range of array");;
  let dst := to_size_t (pointer this + wrap_int (offset * elementSize this)) in
  let bytes := to_size_t (wrap_int (elements * elementSize this)) in
  result <- (if blocking then driverCall (cuMemcpyHtoD dst data bytes)
             else (stream <- getCurrentStream (context this);;
                   driverCall (cuMemcpyHtoDAsync dst data bytes stream)));;
  throw_if (failed result)
    (driverError "Error uploading array " (name this) (status result)).

(** [void CudaArray::download(void*, bool) const] *)
Definition download (data : HostPtr) (blocking : bool) : M D unit :=
  this <- read id;;
  throw_if (pointer this =? 0) (OpenMMException "CudaArray has not been initialized");;
  let bytes := to_size_t (size this * elementSize this) in
  result <- (if blocking then driverCall (cuMemcpyDtoH data (pointer this) bytes)
             else (stream <- getCurrentStream (context this);;
                   driverCall (cuMemcpyDtoHAsync data (pointer this) bytes stream)));;
  throw_if (failed result)
    (driverError "Error downloading array " (name this) (status result)).

(** [void CudaArray::copyTo(ArrayInterface&) const] *)
Definition copyTo (dest : ArrayInterface) : M D unit :=
  this <- read id;;
  throw_if (pointer this =? 0) (OpenMMException "CudaArray has not been initialized");;
  throw_if (negb (getSize_of dest =? size this)
            || negb (getElementSize_of dest =? elementSize this))
    (OpenMMException
       ("Error copying array " ++ name this ++ " to " ++ getName_of dest
        ++ ": The destination array does not match the size of the array")%string);;
  cuDest <- unwrap (context this) dest;;
  stream <- getCurrentStream (context this);;
  result <- driverCall
              (cuMemcpyDtoDAsync (pointer cuDest) (pointer this)
                 (to_size_t (size this * elementSize this)) stream);;
  throw_if (failed result)
    (driverError ("Error copying array " ++ name this ++ " to ")%string
       (getName_of dest) (status result)).

(** [CudaArray::CudaArray()].  The members outside the initializer list
    start with whatever the storage held: [storage] stands for it. *)
Definition CudaArray_default (storage : CudaArray) : CudaArray :=
  set_name EmptyString (set_ownsMemory false (set_pointer 0 storage)).

(** [CudaArray::CudaArray(CudaContext&, size_t, int, const std::string&)] *)
Definition CudaArray_sized (storage : CudaArray) (context_ : CudaContextRef)
    (size_ elementSize_ : Z) (name_ : string)
    : World D -> Outcome unit * CudaArray * World D :=
  initialize (IsCudaContext context_) size_ elementSize_ name_
    (set_name EmptyString (set_pointer 0 storage)).

End Members.

(** ** Reading a log *)

(** The world [w] after the driver moved to [d'] and [evs] were logged. *)
Definition after {D} (w : World D) (d' : D) (evs : list Event) : World D :=
  mkWorld d' (current w) (log w ++ evs) (contextIsValid w) (currentStream w).

(** Every driver call of [evs] happens while the context [c] is the current
    one, made so by a [ContextSelector] that [evs] itself opened: [open] is
    the stack of the selectors open so far. *)
Fixpoint guarded (c : CudaContextRef) (open : list CudaContextRef) (evs : list Event)
    : bool :=
  match evs with
  | [] => true
  | Select c' :: evs' => guarded c (c' :: open) evs'
  | Deselect :: evs' => guarded c (tl open) evs'
  | Call _ :: evs' =>
      match open with
      | top :: _ => Nat.eqb top c && guarded c open evs'
      | [] => false
      end
  | Unwrap _ :: evs' => guarded c open evs'
  end.

Definition is_select (e : Event) : bool :=
  match e with Select _ => true | _ => false end.

(** The message [what] carries the buffer name [n]. *)
Definition mentions (what n : string) : Prop :=
  exists pre post, what = (pre ++ n ++ post)%string.

(** ** A driver for tests

    It answers each call with the next status of a script ([CUDA_SUCCESS]
    once the script is used up) and hands out increasing addresses. *)

Record TestDriver := mkTestDriver { script : list CUresult; next : positive }.

Definition testDriver : Driver TestDriver :=
  fun d c =>
    let st := hd CUDA_SUCCESS (script d) in
    let d' := mkTestDriver (tl (script d)) (next d) in
    match c with
    | cuMemAlloc n =>
        if st =? CUDA_SUCCESS
        then (mkReply st (Some (Z.pos (next d))),
              mkTestDriver (tl (script d)) (next d + Z.to_pos n))
        else (mkReply st None, d')
    | _ => (mkReply st None, d')
    end.

Definition testErrorString (r : CUresult) : string :=
  if r =? 2 then "CUDA_ERROR_OUT_OF_MEMORY"%string else "CUDA_ERROR"%string.

(** A world with one valid context, nothing selected and nothing logged. *)
Definition testWorld (statuses : list CUresult) : World TestDriver :=
  mkWorld (mkTestDriver statuses 8192) [] [] (fun _ => true) (fun _ => 7).

(** An owning array of ten four-byte elements at address 4096. *)
Definition testArray : CudaArray :=
  mkCudaArray 0%nat 4096 10 4 true "forces".

(** The condition under which the destructor frees. *)
Definition must_free {D} (this : CudaArray) (w : World D) : bool :=
  negb (pointer this =? 0) && ownsMemory this && contextIsValid w (context this).

(** The driver contract for allocation: a successful [cuMemAlloc] stores a
    non-null address through its out-parameter. *)
Definition alloc_sound {D} (drv : Driver D) : Prop :=
  forall d n r d',
    drv d (cuMemAlloc n) = (r, d') ->
    status r = CUDA_SUCCESS ->
    exists p, stored r = Some p /\ p <> 0.

(** The count of the array fits the type [getSize()] returns it at. *)
Definition count_fits (t : CType) (n : Z) : Prop :=
  match t with
  | CInt => 0 <= n < 2 ^ 31
  | CSizeT => 0 <= n < 2 ^ 64
  end.

Definition bounds_error : exception :=
  OpenMMException "uploadSubArray: data exceeds range of array".

(** The copy [uploadSubArray] asks the driver for. *)
Definition upload_call {D} (w : World D) (this : CudaArray) (data : HostPtr)
    (offset elements : Z) (blocking : bool) : DriverCall :=
  let dst := to_size_t (pointer this + wrap_int (offset * elementSize this)) in
  let bytes := to_size_t (wrap_int (elements * elementSize this)) in
  if blocking then cuMemcpyHtoD dst data bytes
  else cuMemcpyHtoDAsync dst data bytes (currentStream w (context this)).

(** The copy [download] asks the driver for. *)
Definition download_call {D} (w : World D) (this : CudaArray) (data : HostPtr)
    (blocking : bool) : DriverCall :=
  let bytes := to_size_t (size this * elementSize this) in
  if blocking then cuMemcpyDtoH data (pointer this) bytes
  else cuMemcpyDtoHAsync data (pointer this) bytes (currentStream w (context this)).

(** The copy [copyTo] asks the driver for, once [dest] is unwrapped to [cuDest]. *)
Definition copyTo_call {D} (w : World D) (this cuDest : CudaArray) : DriverCall :=
  cuMemcpyDtoDAsync (pointer cuDest) (pointer this)
    (to_size_t (size this * elementSize this)) (currentStream w (context this)).

(** The shape test of [copyTo]. *)
Definition shape_differs (dest : ArrayInterface) (this : CudaArray) : bool :=
  negb (getSize_of dest =? size this)
  || negb (getElementSize_of dest =? elementSize this).

Definition shape_error (this : CudaArray) (dest : ArrayInterface) : exception :=
  OpenMMException
    ("Error copying array " ++ name this ++ " to " ++ getName_of dest
     ++ ": The destination array does not match the size of the array")%string.

(** The range test of [uploadSubArray]. *)
Definition out_of_range (t : CType) (this : CudaArray) (offset elements : Z) : bool :=
  (offset <? 0) || int_gt (wrap_int (offset + elements)) (getSize t this).

(** What a member function logs on top of the log it found, and the two
    disciplines a member function can follow: every driver call inside a
    selector of its own for the array's context, or no selector at all. *)
Definition selects_for_calls {D A} (m : M D A) : Prop :=
  forall this w,
    exists evs,
      log (snd (m this w)) = log w ++ evs
      /\ guarded (context (snd (fst (m this w)))) [] evs = true
      /\ current (snd (m this w)) = current w.

Definition never_selects {D A} (m : M D A) : Prop :=
  forall this w,
    exists evs,
      log (snd (m this w)) = log w ++ evs
      /\ existsb is_select evs = false
      /\ current (snd (m this w)) = current w.

Definition is_call (e : Event) : bool :=
  match e with Call _ => true | _ => false end.

Definition not_initialized : exception :=
  OpenMMException "CudaArray has not been initialized".

(** An initialized array owns its memory. *)
Definition owns_when_initialized (a : CudaArray) : Prop :=
  pointer a <> 0 -> ownsMemory a = true.

(** A member function that leaves the members alone and asks the driver
    at most once. *)
Definition reads_only {D A} (m : M D A) : Prop :=
  forall this w,
    snd (fst (m this w)) = this
    /\ exists evs,
         log (snd (m this w)) = log w ++ evs
         /\ (List.length (filter is_call evs) <= 1)%nat.

(** ** Properties *)

Lemma mentions_middle (pre n post : string) : mentions (pre ++ n ++ post) n.
Proof. now exists pre, post. Qed.

Lemma testDriver_alloc_sound : alloc_sound testDriver.
Proof.
  intros d n r d' H Hs. unfold testDriver in H.
  destruct (hd CUDA_SUCCESS (script d) =? CUDA_SUCCESS) eqn:E.
  - inversion H; subst; simpl. eexists; split; [reflexivity | discriminate].
  - inversion H; subst; simpl in Hs. rewrite Hs in E. discriminate.
Qed.

Section Properties.

Context {D : Type}.
Variable drv : Driver D.
Variable getErrorString : CUresult -> string.

Ltac run :=
  cbv beta iota delta
    [bind ret throw throw_if read assign emit driverCall getContextIsValid
     getCurrentStream ContextSelector unwrap dynamic_cast_CudaContext
     cuMemAlloc_pointer failed id fst snd].

Ltac tidy :=
  unfold after, set_pointer, set_ownsMemory, set_name, set_elementSize, set_size,
    set_context;
  simpl; rewrite <- ?app_assoc; simpl; try reflexivity.

Lemma failed_true (r : Reply) : status r <> CUDA_SUCCESS -> failed r = true.
Proof. intros H. unfold failed. now apply negb_true_iff, Z.eqb_neq. Qed.

Lemma failed_false (r : Reply) : status r = CUDA_SUCCESS -> failed r = false.
Proof. intros H. unfold failed. now apply negb_false_iff, Z.eqb_eq. Qed.

(** *** initialize *)

Lemma initialize_twice (c : ComputeContext) n es nm this (w : World D) :
  pointer this <> 0 ->
  initialize drv getErrorString c n es nm this w
  = (Thrown (OpenMMException "CudaArray has already been initialized"), this, w).
Proof.
  intros H. unfold initialize. run.
  apply Z.eqb_neq in H. now rewrite H.
Qed.

Lemma initialize_run (c : CudaContextRef) n es nm this (w : World D) r d' :
  pointer this = 0 ->
  drv (driver w) (cuMemAlloc (to_size_t (n * es))) = (r, d') ->
  initialize drv getErrorString (IsCudaContext c) n es nm this w
  = (if failed r then Thrown (driverError getErrorString "Error creating array " nm (status r))
     else Returned tt,
     mkCudaArray c (match stored r with Some p => p | None => 0 end) n es true nm,
     after w d' [Select c; Call (cuMemAlloc (to_size_t (n * es))); Deselect]).
Proof.
  intros Hp Hd. unfold initialize. run. rewrite Hp. simpl.
  rewrite Hd.
  destruct (stored r); destruct (negb (status r =? CUDA_SUCCESS)); tidy;
    now rewrite Hp.
Qed.

Lemma initialize_bad_cast n es nm this (w : World D) :
  pointer this = 0 ->
  initialize drv getErrorString OtherContext n es nm this w = (Thrown bad_cast, this, w).
Proof. intros Hp. unfold initialize. run. now rewrite Hp. Qed.

(** *** resize *)

Lemma resize_misuse n this (w : World D) :
  pointer this = 0 \/ ownsMemory this = false ->
  resize drv getErrorString n this w
  = (Thrown (OpenMMException
               (if pointer this =? 0 then "CudaArray has not been initialized"
                else "Cannot resize an array that does not own its storage")),
     this, w).
Proof.
  intros H. unfold resize. run.
  destruct (pointer this =? 0) eqn:E; [reflexivity |].
  destruct H as [H | H]; [apply Z.eqb_neq in E; contradiction |].
  now rewrite H.
Qed.

Lemma resize_free_fails n this (w : World D) r d' :
  pointer this <> 0 ->
  ownsMemory this = true ->
  drv (driver w) (cuMemFree (pointer this)) = (r, d') ->
  status r <> CUDA_SUCCESS ->
  resize drv getErrorString n this w
  = (Thrown (driverError getErrorString "Error deleting array " (name this) (status r)),
     this,
     after w d' [Select (context this); Call (cuMemFree (pointer this)); Deselect]).
Proof.
  intros Hp Ho Hd Hs. unfold resize. run.
  apply Z.eqb_neq in Hp. rewrite Hp, Ho. simpl. rewrite Hd.
  apply Z.eqb_neq in Hs. rewrite Hs. tidy.
Qed.

Lemma resize_free_succeeds n this (w : World D) r d1 r2 d2 :
  pointer this <> 0 ->
  ownsMemory this = true ->
  drv (driver w) (cuMemFree (pointer this)) = (r, d1) ->
  status r = CUDA_SUCCESS ->
  drv d1 (cuMemAlloc (to_size_t (n * elementSize this))) = (r2, d2) ->
  resize drv getErrorString n this w
  = (if failed r2
     then Thrown (driverError getErrorString "Error creating array " (name this) (status r2))
     else Returned tt,
     mkCudaArray (context this) (match stored r2 with Some p => p | None => 0 end)
       n (elementSize this) true (name this),
     after w d2
       [Select (context this); Call (cuMemFree (pointer this));
        Select (context this); Call (cuMemAlloc (to_size_t (n * elementSize this)));
        Deselect; Deselect]).
Proof.
  intros Hp Ho Hd Hs Hd2. unfold resize. run.
  apply Z.eqb_neq in Hp. rewrite Hp, Ho. simpl. rewrite Hd.
  apply Z.eqb_eq in Hs. rewrite Hs. simpl.
  match goal with
  | |- context [initialize ?a ?b ?c ?n ?e ?m ?t ?v] =>
      rewrite (initialize_run _ n e m t v r2 d2)
  end; [| reflexivity | exact Hd2].
  unfold failed. destruct (negb (status r2 =? CUDA_SUCCESS)); tidy.
Qed.

(** *** The destructor *)

Lemma destroy_skips this (w : World D) :
  must_free this w = false ->
  destroy drv getErrorString this w = (Returned tt, this, w).
Proof.
  unfold must_free, destroy. run. intros H.
  destruct (negb (pointer this =? 0) && ownsMemory this); simpl in *.
  - now rewrite H.
  - reflexivity.
Qed.

Lemma destroy_frees this (w : World D) r d' :
  must_free this w = true ->
  drv (driver w) (cuMemFree (pointer this)) = (r, d') ->
  destroy drv getErrorString this w
  = (if failed r
     then Thrown (driverError getErrorString "Error deleting array " (name this) (status r))
     else Returned tt,
     this,
     after w d' [Select (context this); Call (cuMemFree (pointer this)); Deselect]).
Proof.
  unfold must_free, destroy. run. intros H Hd.
  apply andb_true_iff in H as [H1 H2]. rewrite H1, H2. simpl. rewrite Hd.
  destruct (negb (status r =? CUDA_SUCCESS)); tidy.
Qed.

(** *** Transfers *)

Lemma uploadSubArray_run t data offset elements blocking this (w : World D) r d' :
  pointer this <> 0 ->
  drv (driver w) (upload_call w this data offset elements blocking) = (r, d') ->
  uploadSubArray drv getErrorString t data offset elements blocking this w
  = if out_of_range t this offset elements
    then (Thrown bounds_error, this, w)
    else (if failed r
          then Thrown (driverError getErrorString "Error uploading array "
                         (name this) (status r))
          else Returned tt,
          this,
          after w d' [Call (upload_call w this data offset elements blocking)]).
Proof.
  intros Hp Hd. unfold uploadSubArray, out_of_range, upload_call in *. run.
  apply Z.eqb_neq in Hp. rewrite Hp. simpl.
  destruct ((offset <? 0) || _); [reflexivity |].
  destruct blocking; simpl; rewrite Hd;
    destruct (negb (status r =? CUDA_SUCCESS)); tidy.
Qed.

Lemma download_run data blocking this (w : World D) r d' :
  pointer this <> 0 ->
  drv (driver w) (download_call w this data blocking) = (r, d') ->
  download drv getErrorString data blocking this w
  = (if failed r
     then Thrown (driverError getErrorString "Error downloading array "
                    (name this) (status r))
     else Returned tt,
     this,
     after w d' [Call (download_call w this data blocking)]).
Proof.
  intros Hp Hd. unfold download, download_call in *. run.
  apply Z.eqb_neq in Hp. rewrite Hp. simpl.
  destruct blocking; simpl; rewrite Hd;
    destruct (negb (status r =? CUDA_SUCCESS)); tidy.
Qed.

Lemma copyTo_mismatch dest this (w : World D) :
  pointer this <> 0 ->
  shape_differs dest this = true ->
  copyTo drv getErrorString dest this w = (Thrown (shape_error this dest), this, w).
Proof.
  intros Hp Hs. unfold copyTo, shape_differs in *. run.
  apply Z.eqb_neq in Hp. rewrite Hp. simpl. now rewrite Hs.
Qed.

Lemma copyTo_run cuDest this (w : World D) r d' :
  pointer this <> 0 ->
  shape_differs (OfCudaArray cuDest) this = false ->
  drv (driver w) (copyTo_call w this cuDest) = (r, d') ->
  copyTo drv getErrorString (OfCudaArray cuDest) this w
  = (if failed r
     then Thrown (driverError getErrorString
                    ("Error copying array " ++ name this ++ " to ")%string
                    (name cuDest) (status r))
     else Returned tt,
     this,
     after w d' [Unwrap (OfCudaArray cuDest); Call (copyTo_call w this cuDest)]).
Proof.
  intros Hp Hs Hd. unfold copyTo, shape_differs, copyTo_call in *. run.
  apply Z.eqb_neq in Hp. rewrite Hp. simpl in Hs |- *. rewrite Hs. simpl. rewrite Hd.
  destruct (negb (status r =? CUDA_SUCCESS)); tidy.
Qed.

Lemma copyTo_foreign sz elsz nm this (w : World D) :
  pointer this <> 0 ->
  shape_differs (OfOtherPlatform sz elsz nm) this = false ->
  copyTo drv getErrorString (OfOtherPlatform sz elsz nm) this w
  = (Thrown unwrap_failure, this,
     after w (driver w) [Unwrap (OfOtherPlatform sz elsz nm)]).
Proof.
  intros Hp Hs. unfold copyTo, shape_differs in *. run.
  apply Z.eqb_neq in Hp. rewrite Hp. simpl in Hs |- *. rewrite Hs. tidy.
Qed.

Lemma transfer_uninitialized t data offset elements blocking dest this (w : World D) :
  pointer this = 0 ->
  let e := Thrown (OpenMMException "CudaArray has not been initialized") in
  uploadSubArray drv getErrorString t data offset elements blocking this w = (e, this, w)
  /\ download drv getErrorString data blocking this w = (e, this, w)
  /\ copyTo drv getErrorString dest this w = (e, this, w).
Proof.
  intros Hp. unfold uploadSubArray, download, copyTo. run. rewrite Hp. now simpl.
Qed.

End Properties.

(** *** The range test of uploadSubArray *)

Lemma wrap_int_id z : is_int z -> wrap_int z = z.
Proof.
  unfold is_int, wrap_int. intros H.
  rewrite Z.mod_small; lia.
Qed.

Lemma to_size_t_id z : is_size_t z -> to_size_t z = z.
Proof. unfold is_size_t, to_size_t. intros H. now apply Z.mod_small. Qed.

Lemma to_size_t_negative z : - 2 ^ 64 <= z < 0 -> to_size_t z = z + 2 ^ 64.
Proof.
  unfold to_size_t. intros H.
  symmetry. apply Z.mod_unique with (q := -1); lia.
Qed.

Lemma out_of_range_true t this offset elements :
  is_int (offset + elements) ->
  count_fits t (size this) ->
  offset < 0 \/ offset + elements > size this ->
  out_of_range t this offset elements = true.
Proof.
  intros Hs Hc H. unfold out_of_range.
  destruct (Z.ltb_spec offset 0) as [Ho | Ho]; [reflexivity | simpl].
  destruct H as [H | H]; [lia |].
  rewrite (wrap_int_id _ Hs). unfold is_int in Hs.
  destruct t; simpl in *.
  - rewrite wrap_int_id by (unfold is_int; lia). apply Z.ltb_lt. lia.
  - rewrite to_size_t_id by (unfold is_size_t; lia). apply Z.ltb_lt. lia.
Qed.

Lemma out_of_range_false t this offset elements :
  is_int (offset + elements) ->
  count_fits t (size this) ->
  0 <= offset ->
  0 <= offset + elements <= size this ->
  out_of_range t this offset elements = false.
Proof.
  intros Hs Hc Ho H. unfold out_of_range.
  destruct (Z.ltb_spec offset 0) as [Ho' | Ho']; [lia | simpl].
  rewrite (wrap_int_id _ Hs). unfold is_int in Hs.
  destruct t; simpl in *.
  - rewrite wrap_int_id by (unfold is_int; lia). apply Z.ltb_ge. lia.
  - rewrite to_size_t_id by (unfold is_size_t; lia). apply Z.ltb_ge. lia.
Qed.

(** A negative sum: compared as [int] it passes, compared as [size_t] it
    is far above any count. *)
Lemma out_of_range_negative_sum t this offset elements :
  is_int (offset + elements) ->
  count_fits t (size this) ->
  size this < 2 ^ 63 ->
  0 <= offset ->
  offset + elements < 0 ->
  out_of_range t this offset elements
  = match t with CInt => false | CSizeT => true end.
Proof.
  intros Hs Hc Hb Ho H. unfold out_of_range.
  destruct (Z.ltb_spec offset 0) as [Ho' | Ho']; [lia | simpl].
  rewrite (wrap_int_id _ Hs). unfold is_int in Hs.
  destruct t; simpl in *.
  - rewrite wrap_int_id by (unfold is_int; lia). apply Z.ltb_ge. lia.
  - rewrite to_size_t_negative by lia. apply Z.ltb_lt. lia.
Qed.

(** ** The lifecycle: initialize, resize, destruction *)

Section Lifecycle.

Context {D : Type}.
Variable drv : Driver D.
Variable getErrorString : CUresult -> string.

(** C7.  A second [initialize] on an initialized array throws the misuse
    exception and leaves every member of the array, and the world, as they
    were: nothing is assigned and no driver call is made. *)
Theorem initialize_rejects_second_call
    (c : ComputeContext) (n es : Z) (nm : string) (this : CudaArray) (w : World D) :
  pointer this <> 0 ->
  initialize drv getErrorString c n es nm this w
  = (Thrown (OpenMMException "CudaArray has already been initialized"), this, w).
Proof. apply initialize_twice. Qed.

(** C8.  [resize] on an array that is uninitialized or does not own its
    memory throws the misuse exception of the failed test and leaves the
    array and the world unchanged: no free, no allocation. *)
Theorem resize_rejects_misuse (n : Z) (this : CudaArray) (w : World D) :
  pointer this = 0 \/ ownsMemory this = false ->
  resize drv getErrorString n this w
  = (Thrown (OpenMMException
               (if pointer this =? 0 then "CudaArray has not been initialized"
                else "Cannot resize an array that does not own its storage")),
     this, w).
Proof. apply resize_misuse. Qed.

(** C5.  The destructor frees exactly when the handle is non-null, the
    array owns its memory and its context is still valid: then it logs one
    [cuMemFree] of the handle inside a selector and throws an exception
    naming the buffer if the status is not success; otherwise (in
    particular with an invalid context) it does nothing at all. *)
Theorem destructor_frees_exactly_when
    (this : CudaArray) (w : World D) (r : Reply) (d' : D) :
  drv (driver w) (cuMemFree (pointer this)) = (r, d') ->
  let '(out, this', w') := destroy drv getErrorString this w in
  this' = this
  /\ (pointer this <> 0 /\ ownsMemory this = true
      /\ contextIsValid w (context this) = true ->
      w' = after w d' [Select (context this); Call (cuMemFree (pointer this)); Deselect]
      /\ (status r = CUDA_SUCCESS -> out = Returned tt)
      /\ (status r <> CUDA_SUCCESS ->
          exists what, out = Thrown (OpenMMException what) /\ mentions what (name this)))
  /\ (~ (pointer this <> 0 /\ ownsMemory this = true
         /\ contextIsValid w (context this) = true) ->
      out = Returned tt /\ w' = w)
  /\ (contextIsValid w (context this) = false -> w' = w).
Proof.
  intros Hd.
  destruct (must_free this w) eqn:E.
  - rewrite (destroy_frees _ _ _ _ r d' E Hd).
    unfold must_free in E. apply andb_true_iff in E as [E Hv].
    apply andb_true_iff in E as [Hp Ho].
    split; [reflexivity |]. split; [| split].
    + intros _. split; [reflexivity |]. split; intros Hs.
      * now rewrite failed_false.
      * rewrite failed_true by assumption. eexists. split; [reflexivity |].
        apply mentions_middle.
    + intros Hn. exfalso. apply Hn. repeat split; try assumption.
      apply negb_true_iff in Hp. now apply Z.eqb_neq.
    + intros Hv'. congruence.
  - rewrite (destroy_skips _ _ _ _ E).
    split; [reflexivity |]. split; [| split].
    + intros (Hp & Ho & Hv). unfold must_free in E.
      apply Z.eqb_neq in Hp. rewrite Hp, Ho, Hv in E. discriminate.
    + intros _. now split.
    + reflexivity.
Qed.

(** C2, as the code has it.  When the free step of [resize] reports a
    non-success status, [resize] throws the driver error naming the buffer
    before any allocation is attempted (the log gains the selector and the
    one [cuMemFree], nothing else), and the array is left exactly as it
    was: its handle still holds the old, non-null address. *)
Theorem resize_free_failure_keeps_state
    (n : Z) (this : CudaArray) (w : World D) (r : Reply) (d' : D) :
  pointer this <> 0 ->
  ownsMemory this = true ->
  drv (driver w) (cuMemFree (pointer this)) = (r, d') ->
  status r <> CUDA_SUCCESS ->
  let '(out, this', w') := resize drv getErrorString n this w in
  out = Thrown (driverError getErrorString "Error deleting array " (name this) (status r))
  /\ w' = after w d' [Select (context this); Call (cuMemFree (pointer this)); Deselect]
  /\ this' = this
  /\ pointer this' <> 0.
Proof.
  intros Hp Ho Hd Hs.
  rewrite (resize_free_fails _ _ n this w r d' Hp Ho Hd Hs).
  repeat split; assumption.
Qed.

(** C3, as the code has it.  When the allocation of [initialize] reports a
    non-success status on an uninitialized array, [initialize] throws the
    allocation failure naming the buffer and the status; the handle stays 0
    provided the failed allocation stored nothing through its
    out-parameter; the other members hold the arguments of the call, and
    [ownsMemory] is true. *)
Theorem initialize_alloc_failure_state
    (c : CudaContextRef) (n es : Z) (nm : string) (this : CudaArray) (w : World D)
    (r : Reply) (d' : D) :
  pointer this = 0 ->
  drv (driver w) (cuMemAlloc (to_size_t (n * es))) = (r, d') ->
  status r <> CUDA_SUCCESS ->
  stored r = None ->
  let '(out, this', w') := initialize drv getErrorString (IsCudaContext c) n es nm this w in
  out = Thrown (driverError getErrorString "Error creating array " nm (status r))
  /\ pointer this' = 0
  /\ context this' = c /\ size this' = n /\ elementSize this' = es
  /\ name this' = nm /\ ownsMemory this' = true
  /\ w' = after w d' [Select c; Call (cuMemAlloc (to_size_t (n * es))); Deselect].
Proof.
  intros Hp Hd Hs Hn.
  rewrite (initialize_run _ _ c n es nm this w r d' Hp Hd).
  rewrite failed_true by assumption. rewrite Hn. simpl.
  repeat split.
Qed.

(** C9.  A [resize] that returns leaves the array initialized (given that
    the driver's successful allocations store a non-null address) with the
    new count, the same element size, name and context, and owning its
    memory; and the array is member for member the one that [initialize]
    with those arguments produces from a freshly constructed array, run
    against the driver as the free left it. *)
Theorem resize_success_as_fresh_initialize
    (n : Z) (this this' : CudaArray) (w w' : World D) :
  alloc_sound drv ->
  pointer this <> 0 ->
  ownsMemory this = true ->
  resize drv getErrorString n this w = (Returned tt, this', w') ->
  pointer this' <> 0
  /\ size this' = n
  /\ elementSize this' = elementSize this
  /\ name this' = name this
  /\ context this' = context this
  /\ ownsMemory this' = ownsMemory this
  /\ forall (storage : CudaArray) (wf : World D),
       driver wf = snd (drv (driver w) (cuMemFree (pointer this))) ->
       fst (initialize drv getErrorString (IsCudaContext (context this)) n
              (elementSize this) (name this) (CudaArray_default storage) wf)
       = (Returned tt, this').
Proof.
  intros Hsound Hp Ho Hr.
  destruct (drv (driver w) (cuMemFree (pointer this))) as [r d1] eqn:Hd.
  destruct (Z.eq_dec (status r) CUDA_SUCCESS) as [Hs | Hs].
  2:{ rewrite (resize_free_fails _ _ n this w r d1 Hp Ho Hd Hs) in Hr. discriminate. }
  destruct (drv d1 (cuMemAlloc (to_size_t (n * elementSize this)))) as [r2 d2] eqn:Hd2.
  rewrite (resize_free_succeeds _ _ n this w r d1 r2 d2 Hp Ho Hd Hs Hd2) in Hr.
  destruct (failed r2) eqn:Hf; [discriminate |].
  assert (Hs2 : status r2 = CUDA_SUCCESS).
  { unfold failed in Hf. apply negb_false_iff in Hf. now apply Z.eqb_eq. }
  destruct (Hsound _ _ _ _ Hd2 Hs2) as (p & Hst & Hnz).
  rewrite Hst in Hr. inversion Hr; subst this' w'; clear Hr. simpl.
  repeat split; try assumption; try (symmetry; assumption).
  intros storage wf Hwf. simpl in Hwf.
  rewrite (initialize_run _ _ (context this) n (elementSize this) (name this)
             (CudaArray_default storage) wf r2 d2).
  - rewrite Hf, Hst. reflexivity.
  - reflexivity.
  - rewrite Hwf. exact Hd2.
Qed.

End Lifecycle.

(** ** Transfers: uploadSubArray, download, copyTo *)

Section Transfers.

Context {D : Type}.
Variable drv : Driver D.
Variable getErrorString : CUresult -> string.

(** C6.  On an initialized array, [copyTo] a destination whose element
    count or element size differs throws the shape exception, whose message
    carries both buffer names, with the array and the world untouched: no
    driver call and no unwrap of the destination happened.  Only equality of
    both count and element size gets past the test: then the next thing
    [copyTo] does is the unwrap. *)
Theorem copyTo_demands_equal_shape
    (dest : ArrayInterface) (this : CudaArray) (w : World D) :
  pointer this <> 0 ->
  (getSize_of dest <> size this \/ getElementSize_of dest <> elementSize this ->
   copyTo drv getErrorString dest this w
   = (Thrown (OpenMMException
                ("Error copying array " ++ name this ++ " to " ++ getName_of dest
                 ++ ": The destination array does not match the size of the array")%string),
      this, w))
  /\ (getSize_of dest = size this /\ getElementSize_of dest = elementSize this ->
      exists evs,
        log (snd (copyTo drv getErrorString dest this w)) = log w ++ Unwrap dest :: evs).
Proof.
  intros Hp. split.
  - intros H. apply copyTo_mismatch; [assumption |].
    unfold shape_differs. apply orb_true_iff.
    destruct H as [H | H]; [left | right]; now apply negb_true_iff, Z.eqb_neq.
  - intros [H1 H2].
    assert (Hs : shape_differs dest this = false).
    { unfold shape_differs. apply Z.eqb_eq in H1, H2. now rewrite H1, H2. }
    destruct dest as [cuDest | sz elsz nm].
    + destruct (drv (driver w) (copyTo_call w this cuDest)) as [r d'] eqn:Hd.
      rewrite (copyTo_run _ _ cuDest this w r d' Hp Hs Hd). simpl.
      now eexists.
    + rewrite (copyTo_foreign _ _ sz elsz nm this w Hp Hs). simpl.
      now eexists.
Qed.

(** C4, as the code has it.  On an initialized array whose count fits the
    type of [getSize()], with an [int] sum [offset + elements]: if
    [offset < 0] or [offset + elements > size] the bounds exception is
    thrown and nothing else happens; if [0 <= offset] and the sum is
    negative and [getSize()] is a [size_t] (count below 2^63), the bounds
    exception is thrown as well and nothing else happens; if [0 <= offset],
    [0 <= elements], [offset + elements <= size] and neither
    [offset * elementSize] nor [elements * elementSize] overflows [int]
    (element size not negative, address below 2^64), exactly one
    host-to-device copy is asked of the driver (on the current stream when
    not blocking), of [elements * elementSize] bytes to
    [pointer + offset * elementSize], and a non-success status becomes the
    upload exception.  Nothing is said of a negative [elements] that passes
    the test, nor of products that overflow [int]. *)
Theorem uploadSubArray_range_checked
    (t : CType) (data : HostPtr) (offset elements : Z) (blocking : bool)
    (this : CudaArray) (w : World D) (r : Reply) (d' : D) :
  pointer this <> 0 ->
  count_fits t (size this) ->
  is_int (offset + elements) ->
  drv (driver w) (upload_call w this data offset elements blocking) = (r, d') ->
  (offset < 0 \/ offset + elements > size this ->
   uploadSubArray drv getErrorString t data offset elements blocking this w
   = (Thrown (OpenMMException "uploadSubArray: data exceeds range of array"), this, w))
  /\ (t = CSizeT -> size this < 2 ^ 63 -> 0 <= offset -> offset + elements < 0 ->
      uploadSubArray drv getErrorString t data offset elements blocking this w
      = (Thrown (OpenMMException "uploadSubArray: data exceeds range of array"),
         this, w))
  /\ (0 <= offset -> 0 <= elements -> offset + elements <= size this ->
      0 <= elementSize this ->
      offset * elementSize this < 2 ^ 31 ->
      elements * elementSize this < 2 ^ 31 ->
      0 <= pointer this ->
      pointer this + offset * elementSize this < 2 ^ 64 ->
      uploadSubArray drv getErrorString t data offset elements blocking this w
      = (if status r =? CUDA_SUCCESS then Returned tt
         else Thrown (driverError getErrorString "Error uploading array "
                        (name this) (status r)),
         this,
         after w d'
           [Call (if blocking
                  then cuMemcpyHtoD (pointer this + offset * elementSize this) data
                         (elements * elementSize this)
                  else cuMemcpyHtoDAsync (pointer this + offset * elementSize this) data
                         (elements * elementSize this)
                         (currentStream w (context this)))])).
Proof.
  intros Hp Hc Hs Hd. split; [| split].
  - intros H.
    rewrite (uploadSubArray_run _ _ t data offset elements blocking this w r d' Hp Hd).
    now rewrite out_of_range_true.
  - intros Ht Hb Ho Hn. subst t.
    rewrite (uploadSubArray_run _ _ CSizeT data offset elements blocking this w r d' Hp Hd).
    now rewrite out_of_range_negative_sum.
  - intros Ho Hn Hle He Hoe Hne Hp0 Hpe.
    assert (H1 : 0 <= offset * elementSize this) by nia.
    assert (H2 : 0 <= elements * elementSize this) by nia.
    rewrite (uploadSubArray_run _ _ t data offset elements blocking this w r d' Hp Hd).
    rewrite out_of_range_false by (assumption || lia).
    unfold upload_call.
    rewrite !wrap_int_id by (unfold is_int; lia).
    rewrite !to_size_t_id by (unfold is_size_t; lia).
    unfold failed. destruct (status r =? CUDA_SUCCESS); destruct blocking; reflexivity.
Qed.

(** C10.  The range test lets a negative [elements] through: on the test
    array (ten elements of four bytes), whatever type [getSize()] has,
    [offset = 1] with [elements = -1] passes the test and a copy is asked of
    the driver with the byte count [elements * elementSize] converted to
    [size_t]; no bounds exception is thrown.  The pair [offset = 0],
    [elements = -1] passes when [getSize()] is an [int]; against a [size_t]
    the sum -1 converts to 2^64 - 1 and is out of range. *)
Theorem uploadSubArray_accepts_negative_count
    (t : CType) (data : HostPtr) (w : World D) :
  (exists this offset elements out d',
     pointer this <> 0 /\ 0 <= offset /\ elements < 0
     /\ uploadSubArray drv getErrorString t data offset elements true this w
        = (out, this,
           after w d'
             [Call (cuMemcpyHtoD
                      (to_size_t (pointer this + wrap_int (offset * elementSize this)))
                      data
                      (to_size_t (wrap_int (elements * elementSize this))))])
     /\ out <> Thrown bounds_error)
  /\ (exists out d',
       uploadSubArray drv getErrorString CInt data 0 (-1) true testArray w
       = (out, testArray, after w d' [Call (cuMemcpyHtoD 4096 data (2 ^ 64 - 4))])
       /\ out <> Thrown bounds_error)
  /\ uploadSubArray drv getErrorString CSizeT data 0 (-1) true testArray w
     = (Thrown bounds_error, testArray, w).
Proof.
  assert (Hp : pointer testArray <> 0) by discriminate.
  split; [| split].
  - destruct (drv (driver w) (upload_call w testArray data 1 (-1) true))
      as [r d'] eqn:Hd.
    exists testArray, 1, (-1).
    rewrite (uploadSubArray_run _ _ t data 1 (-1) true testArray w r d' Hp Hd).
    replace (out_of_range t testArray 1 (-1)) with false by (now destruct t).
    eexists. exists d'. repeat split; try lia; try assumption.
    unfold failed. destruct (negb (status r =? CUDA_SUCCESS)); discriminate.
  - destruct (drv (driver w) (upload_call w testArray data 0 (-1) true))
      as [r d'] eqn:Hd.
    rewrite (uploadSubArray_run _ _ CInt data 0 (-1) true testArray w r d' Hp Hd).
    replace (out_of_range CInt testArray 0 (-1)) with false by reflexivity.
    eexists. exists d'. split; [reflexivity |].
    unfold failed. destruct (negb (status r =? CUDA_SUCCESS)); discriminate.
  - destruct (drv (driver w) (upload_call w testArray data 0 (-1) true))
      as [r d'] eqn:Hd.
    rewrite (uploadSubArray_run _ _ CSizeT data 0 (-1) true testArray w r d' Hp Hd).
    reflexivity.
Qed.

End Transfers.

(** ** Which calls run under a selector *)

Section Selectors.

Context {D : Type}.
Variable drv : Driver D.
Variable getErrorString : CUresult -> string.

Lemma logs_nothing {A} (m : M D A) (this : CudaArray) (w : World D) out this' :
  m this w = (out, this', w) ->
  exists evs,
    log (snd (m this w)) = log w ++ evs
    /\ guarded (context (snd (fst (m this w)))) [] evs = true
    /\ current (snd (m this w)) = current w.
Proof.
  intros H. rewrite H. exists []. simpl. now rewrite app_nil_r.
Qed.

Lemma initialize_selects c n es nm :
  selects_for_calls (initialize drv getErrorString c n es nm).
Proof.
  intros this w.
  destruct (Z.eq_dec (pointer this) 0) as [Hp | Hp].
  - destruct c as [c |].
    + destruct (drv (driver w) (cuMemAlloc (to_size_t (n * es)))) as [r d'] eqn:Hd.
      rewrite (initialize_run _ _ c n es nm this w r d' Hp Hd). simpl.
      eexists. split; [reflexivity |]. simpl. now rewrite Nat.eqb_refl.
    + eapply logs_nothing. now apply initialize_bad_cast.
  - eapply logs_nothing. now apply initialize_twice.
Qed.

Lemma resize_selects n : selects_for_calls (resize drv getErrorString n).
Proof.
  intros this w.
  destruct (Z.eq_dec (pointer this) 0) as [Hp | Hp];
    [eapply logs_nothing; apply resize_misuse; now left |].
  destruct (ownsMemory this) eqn:Ho;
    [| eapply logs_nothing; apply resize_misuse; now right].
  destruct (drv (driver w) (cuMemFree (pointer this))) as [r d1] eqn:Hd.
  destruct (Z.eq_dec (status r) CUDA_SUCCESS) as [Hs | Hs].
  - destruct (drv d1 (cuMemAlloc (to_size_t (n * elementSize this)))) as [r2 d2] eqn:Hd2.
    rewrite (resize_free_succeeds _ _ n this w r d1 r2 d2 Hp Ho Hd Hs Hd2). simpl.
    eexists. split; [reflexivity |]. simpl. now rewrite Nat.eqb_refl.
  - rewrite (resize_free_fails _ _ n this w r d1 Hp Ho Hd Hs). simpl.
    eexists. split; [reflexivity |]. simpl. now rewrite Nat.eqb_refl.
Qed.

Lemma destroy_selects : selects_for_calls (destroy drv getErrorString).
Proof.
  intros this w.
  destruct (must_free this w) eqn:E.
  - destruct (drv (driver w) (cuMemFree (pointer this))) as [r d'] eqn:Hd.
    rewrite (destroy_frees _ _ this w r d' E Hd). simpl.
    eexists. split; [reflexivity |]. simpl. now rewrite Nat.eqb_refl.
  - eapply logs_nothing. now apply destroy_skips.
Qed.

Lemma uploadSubArray_never_selects t data offset elements blocking :
  never_selects (uploadSubArray drv getErrorString t data offset elements blocking).
Proof.
  intros this w.
  destruct (Z.eq_dec (pointer this) 0) as [Hp | Hp].
  - destruct (transfer_uninitialized drv getErrorString t data offset elements blocking
                (OfCudaArray this) this w Hp) as (H & _ & _).
    rewrite H. exists []. simpl. now rewrite app_nil_r.
  - destruct (drv (driver w) (upload_call w this data offset elements blocking))
      as [r d'] eqn:Hd.
    rewrite (uploadSubArray_run _ _ t data offset elements blocking this w r d' Hp Hd).
    destruct (out_of_range t this offset elements); simpl.
    + exists []. simpl. now rewrite app_nil_r.
    + eexists. split; [reflexivity |]. now simpl.
Qed.

Lemma download_never_selects data blocking :
  never_selects (download drv getErrorString data blocking).
Proof.
  intros this w.
  destruct (Z.eq_dec (pointer this) 0) as [Hp | Hp].
  - destruct (transfer_uninitialized drv getErrorString CSizeT data 0 0 blocking
                (OfCudaArray this) this w Hp) as (_ & H & _).
    rewrite H. exists []. simpl. now rewrite app_nil_r.
  - destruct (drv (driver w) (download_call w this data blocking)) as [r d'] eqn:Hd.
    rewrite (download_run _ _ data blocking this w r d' Hp Hd). simpl.
    eexists. split; [reflexivity |]. now simpl.
Qed.

Lemma copyTo_never_selects dest : never_selects (copyTo drv getErrorString dest).
Proof.
  intros this w.
  destruct (Z.eq_dec (pointer this) 0) as [Hp | Hp].
  - destruct (transfer_uninitialized drv getErrorString CSizeT 0 0 0 true
                dest this w Hp) as (_ & _ & H).
    rewrite H. exists []. simpl. now rewrite app_nil_r.
  - destruct (shape_differs dest this) eqn:Hs.
    + rewrite (copyTo_mismatch _ _ dest this w Hp Hs).
      exists []. simpl. now rewrite app_nil_r.
    + destruct dest as [cuDest | sz elsz nm].
      * destruct (drv (driver w) (copyTo_call w this cuDest)) as [r d'] eqn:Hd.
        rewrite (copyTo_run _ _ cuDest this w r d' Hp Hs Hd). simpl.
        eexists. split; [reflexivity |]. now simpl.
      * rewrite (copyTo_foreign _ _ sz elsz nm this w Hp Hs). simpl.
        eexists. split; [reflexivity |]. now simpl.
Qed.

(** C1, as the code has it.  Allocation and free run under a selector:
    whatever [initialize], [resize] and the destructor ask of the driver
    ([cuMemAlloc], [cuMemFree]) is asked while a [ContextSelector] they
    opened themselves has made the array's context current, and they leave
    the stack of current contexts as they found it.  The transfers open no
    selector: [uploadSubArray], [download] and [copyTo] log no selection at
    all, so their copy runs under whatever context the caller left
    current. *)
Theorem selectors_guard_allocation_and_free :
  (forall c n es nm, selects_for_calls (initialize drv getErrorString c n es nm))
  /\ (forall n, selects_for_calls (resize drv getErrorString n))
  /\ selects_for_calls (destroy drv getErrorString)
  /\ (forall t data offset elements blocking,
        never_selects (uploadSubArray drv getErrorString t data offset elements blocking))
  /\ (forall data blocking, never_selects (download drv getErrorString data blocking))
  /\ (forall dest, never_selects (copyTo drv getErrorString dest)).
Proof.
  repeat split.
  - apply initialize_selects.
  - apply resize_selects.
  - apply destroy_selects.
  - apply uploadSubArray_never_selects.
  - apply download_never_selects.
  - apply copyTo_never_selects.
Qed.

End Selectors.

(** ** Runs against the test driver *)

(** C1 fails as stated: a blocking upload of one element to the test array,
    a download and a copy to itself each reach the driver with no selector
    open. *)
Lemma transfers_reach_driver_unselected :
  log (snd (uploadSubArray testDriver testErrorString CSizeT 100 0 1 true
              testArray (testWorld [])))
  = [Call (cuMemcpyHtoD 4096 100 4)]
  /\ ~ selects_for_calls (uploadSubArray testDriver testErrorString CSizeT 100 0 1 true)
  /\ ~ selects_for_calls (download testDriver testErrorString 100 true)
  /\ ~ selects_for_calls (copyTo testDriver testErrorString (OfCudaArray testArray)).
Proof.
  split; [reflexivity |].
  repeat split; intros H;
    destruct (H testArray (testWorld [])) as (evs & H1 & H2 & _);
    vm_compute in H1; subst evs; vm_compute in H2; discriminate.
Qed.

(** C2 fails as stated: after a [resize] whose free fails the handle is
    still 4096, not 0, and the destructor frees that handle again. *)
Lemma resize_free_failure_handle_not_cleared :
  let '(out, this', w') := resize testDriver testErrorString 20 testArray (testWorld [1]) in
  out = Thrown (OpenMMException "Error deleting array forces: CUDA_ERROR (1)")
  /\ pointer this' = 4096
  /\ pointer this' <> 0
  /\ log (snd (destroy testDriver testErrorString this' w'))
     = [Select 0%nat; Call (cuMemFree 4096); Deselect;
        Select 0%nat; Call (cuMemFree 4096); Deselect].
Proof. vm_compute. repeat split. discriminate. Qed.

(** C3 fails as stated: a failed [initialize] on a default-constructed
    array leaves [ownsMemory] true where it was false, and the count, the
    element size, the name and the context replaced by the arguments. *)
Lemma initialize_alloc_failure_changes_members :
  let this := CudaArray_default testArray in
  let '(out, this', w') :=
    initialize testDriver testErrorString (IsCudaContext 3%nat) 5 8 "x" this (testWorld [2]) in
  pointer this = 0
  /\ out = Thrown (OpenMMException "Error creating array x: CUDA_ERROR_OUT_OF_MEMORY (2)")
  /\ pointer this' = 0
  /\ (ownsMemory this = false /\ ownsMemory this' = true)
  /\ (size this = 10 /\ size this' = 5)
  /\ (elementSize this = 4 /\ elementSize this' = 8)
  /\ (name this = EmptyString /\ name this' = "x"%string)
  /\ (context this = 0%nat /\ context this' = 3%nat).
Proof. vm_compute. repeat split. Qed.

(** C4 fails as stated.  When [getSize()] is a [size_t], [offset = 0] with
    [elements = -1] is not in the rejected range of the claim
    ([offset >= 0] and [offset + elements <= size]), yet the bounds
    exception is thrown and no copy is made.  And whatever the type of
    [getSize()], [offset = 1] with [elements = -1] is in the claim's copying
    range, yet the driver is asked for 2^64 - 4 bytes, which is not
    [elements * elementSize]. *)
Lemma uploadSubArray_rejects_negative_sum :
  (~ (0 < 0 \/ 0 + -1 > size testArray)
   /\ uploadSubArray testDriver testErrorString CSizeT 100 0 (-1) true
        testArray (testWorld [])
      = (Thrown (OpenMMException "uploadSubArray: data exceeds range of array"),
         testArray, testWorld []))
  /\ (~ (1 < 0 \/ 1 + -1 > size testArray)
      /\ (forall t,
            log (snd (uploadSubArray testDriver testErrorString t 100 1 (-1) true
                        testArray (testWorld [])))
            = [Call (cuMemcpyHtoD 4100 100 18446744073709551612)])
      /\ 18446744073709551612 <> -1 * elementSize testArray).
Proof.
  split; [split; [simpl; lia | reflexivity] |].
  split; [simpl; lia |]. split; [| simpl; lia].
  intros t. destruct t; reflexivity.
Qed.

Lemma initialize_rejects_second_call_witness :
  pointer testArray <> 0
  /\ initialize testDriver testErrorString (IsCudaContext 1%nat) 20 4 "again"
       testArray (testWorld [])
     = (Thrown (OpenMMException "CudaArray has already been initialized"),
        testArray, testWorld []).
Proof.
  split; [discriminate | apply initialize_rejects_second_call; discriminate].
Defined.

Lemma resize_rejects_misuse_witness :
  (pointer (set_ownsMemory false testArray) = 0
   \/ ownsMemory (set_ownsMemory false testArray) = false)
  /\ resize testDriver testErrorString 20 (set_ownsMemory false testArray) (testWorld [])
     = (Thrown (OpenMMException "Cannot resize an array that does not own its storage"),
        set_ownsMemory false testArray, testWorld []).
Proof.
  split; [right; reflexivity |].
  exact (resize_rejects_misuse testDriver testErrorString 20
           (set_ownsMemory false testArray) (testWorld []) (or_intror eq_refl)).
Defined.

Lemma destructor_frees_exactly_when_witness :
  testDriver (driver (testWorld [700])) (cuMemFree (pointer testArray))
  = (mkReply 700 None, mkTestDriver [] 8192)
  /\ (exists what,
        fst (fst (destroy testDriver testErrorString testArray (testWorld [700])))
        = Thrown (OpenMMException what)
        /\ mentions what "forces")
  /\ log (snd (destroy testDriver testErrorString testArray (testWorld [700])))
     = [Select 0%nat; Call (cuMemFree 4096); Deselect].
Proof.
  split; [reflexivity |].
  pose proof (destructor_frees_exactly_when testDriver testErrorString testArray
                (testWorld [700]) _ _ eq_refl) as H.
  destruct (destroy testDriver testErrorString testArray (testWorld [700]))
    as [[out this'] w'].
  destruct H as (_ & Ht & _).
  destruct Ht as (Hw & _ & Hf).
  { repeat split. discriminate. }
  split; [apply Hf; discriminate | rewrite Hw; reflexivity].
Defined.

Lemma resize_free_failure_keeps_state_witness :
  pointer testArray <> 0
  /\ ownsMemory testArray = true
  /\ testDriver (driver (testWorld [1])) (cuMemFree (pointer testArray))
     = (mkReply 1 None, mkTestDriver [] 8192)
  /\ 1 <> CUDA_SUCCESS
  /\ snd (fst (resize testDriver testErrorString 20 testArray (testWorld [1]))) = testArray.
Proof.
  assert (Hp : pointer testArray <> 0) by discriminate.
  assert (Hs : 1 <> CUDA_SUCCESS) by discriminate.
  split; [exact Hp |]. split; [reflexivity |]. split; [reflexivity |].
  split; [exact Hs |].
  pose proof (resize_free_failure_keeps_state testDriver testErrorString 20 testArray
                (testWorld [1]) _ _ Hp eq_refl eq_refl Hs) as H.
  destruct (resize testDriver testErrorString 20 testArray (testWorld [1]))
    as [[out this'] w'].
  destruct H as (_ & _ & H & _). exact H.
Defined.

Lemma initialize_alloc_failure_state_witness :
  pointer (CudaArray_default testArray) = 0
  /\ testDriver (driver (testWorld [2])) (cuMemAlloc (to_size_t (5 * 8)))
     = (mkReply 2 None, mkTestDriver [] 8192)
  /\ 2 <> CUDA_SUCCESS
  /\ snd (fst (initialize testDriver testErrorString (IsCudaContext 3%nat) 5 8 "x"
                 (CudaArray_default testArray) (testWorld [2])))
     = mkCudaArray 3%nat 0 5 8 true "x".
Proof.
  assert (Hs : 2 <> CUDA_SUCCESS) by discriminate.
  split; [reflexivity |]. split; [reflexivity |]. split; [exact Hs |].
  pose proof (initialize_alloc_failure_state testDriver testErrorString 3%nat 5 8 "x"
                (CudaArray_default testArray) (testWorld [2]) _ _
                eq_refl eq_refl Hs eq_refl) as H.
  destruct (initialize testDriver testErrorString (IsCudaContext 3%nat) 5 8 "x"
              (CudaArray_default testArray) (testWorld [2])) as [[out this'] w'].
  destruct H as (_ & H1 & H2 & H3 & H4 & H5 & H6 & _).
  destruct this'; simpl in *. now subst.
Defined.

Lemma resize_success_as_fresh_initialize_witness :
  alloc_sound testDriver
  /\ pointer testArray <> 0
  /\ ownsMemory testArray = true
  /\ resize testDriver testErrorString 20 testArray (testWorld [])
     = (Returned tt, mkCudaArray 0%nat 8192 20 4 true "forces",
        after (testWorld []) (mkTestDriver [] 8272)
          [Select 0%nat; Call (cuMemFree 4096); Select 0%nat; Call (cuMemAlloc 80);
           Deselect; Deselect])
  /\ fst (initialize testDriver testErrorString (IsCudaContext 0%nat) 20 4 "forces"
            (CudaArray_default testArray) (testWorld []))
     = (Returned tt, mkCudaArray 0%nat 8192 20 4 true "forces").
Proof.
  assert (Hp : pointer testArray <> 0) by discriminate.
  split; [apply testDriver_alloc_sound |]. split; [exact Hp |].
  split; [reflexivity |]. split; [reflexivity |].
  apply (resize_success_as_fresh_initialize testDriver testErrorString 20 testArray
           (mkCudaArray 0%nat 8192 20 4 true "forces") (testWorld [])
           (after (testWorld []) (mkTestDriver [] 8272)
              [Select 0%nat; Call (cuMemFree 4096); Select 0%nat; Call (cuMemAlloc 80);
               Deselect; Deselect])
           testDriver_alloc_sound Hp eq_refl eq_refl).
  reflexivity.
Defined.

Lemma copyTo_demands_equal_shape_witness :
  pointer testArray <> 0
  /\ (getSize_of (OfOtherPlatform 5 4 "dst") <> size testArray
      \/ getElementSize_of (OfOtherPlatform 5 4 "dst") <> elementSize testArray)
  /\ copyTo testDriver testErrorString (OfOtherPlatform 5 4 "dst") testArray (testWorld [])
     = (Thrown (OpenMMException
                  "Error copying array forces to dst: The destination array does not match the size of the array"),
        testArray, testWorld []).
Proof.
  assert (Hp : pointer testArray <> 0) by discriminate.
  assert (Hs : getSize_of (OfOtherPlatform 5 4 "dst") <> size testArray
               \/ getElementSize_of (OfOtherPlatform 5 4 "dst") <> elementSize testArray)
    by (left; discriminate).
  split; [exact Hp |]. split; [exact Hs |].
  exact (proj1 (copyTo_demands_equal_shape testDriver testErrorString
                  (OfOtherPlatform 5 4 "dst") testArray (testWorld []) Hp) Hs).
Defined.

Lemma uploadSubArray_range_checked_witness :
  pointer testArray <> 0
  /\ count_fits CSizeT (size testArray)
  /\ is_int (2 + 3)
  /\ testDriver (driver (testWorld [])) (upload_call (testWorld []) testArray 100 2 3 false)
     = (mkReply 0 None, mkTestDriver [] 8192)
  /\ uploadSubArray testDriver testErrorString CSizeT 100 2 3 false testArray (testWorld [])
     = (Returned tt, testArray,
        after (testWorld []) (mkTestDriver [] 8192)
          [Call (cuMemcpyHtoDAsync 4104 100 12 7)]).
Proof.
  assert (Hp : pointer testArray <> 0) by discriminate.
  assert (Hc : count_fits CSizeT (size testArray)) by (simpl; lia).
  assert (Hi : is_int (2 + 3)) by (unfold is_int; lia).
  split; [exact Hp |]. split; [exact Hc |]. split; [exact Hi |].
  split; [reflexivity |].
  refine (proj2 (proj2 (uploadSubArray_range_checked testDriver testErrorString CSizeT
                          100 2 3 false testArray (testWorld []) _ _ Hp Hc Hi eq_refl))
            _ _ _ _ _ _ _ _); simpl; lia.
Defined.

(** ** Construction and first use *)

Section Construction.

Context {D : Type}.
Variable drv : Driver D.
Variable getErrorString : CUresult -> string.

(** X1.  On an uninitialized array each transfer throws the misuse
    exception first: before the range test, the shape test, the unwrap and
    any driver call; the array and the world are as they were. *)
Theorem transfers_reject_uninitialized
    (t : CType) (data : HostPtr) (offset elements : Z) (blocking : bool)
    (dest : ArrayInterface) (this : CudaArray) (w : World D) :
  pointer this = 0 ->
  uploadSubArray drv getErrorString t data offset elements blocking this w
  = (Thrown not_initialized, this, w)
  /\ download drv getErrorString data blocking this w = (Thrown not_initialized, this, w)
  /\ copyTo drv getErrorString dest this w = (Thrown not_initialized, this, w).
Proof.
  intros Hp.
  exact (transfer_uninitialized drv getErrorString t data offset elements blocking
           dest this w Hp).
Qed.

(** X2.  A successful [initialize] on an uninitialized array overwrites
    every member: the context, count, element size and name are the
    arguments, [ownsMemory] is true and the handle is the address the driver
    stored, whatever the members held before; [getContext] returns the
    context given; the one driver call is a [cuMemAlloc] of
    [size * elementSize] bytes modulo 2^64, made under a selector that is
    closed again. *)
Theorem initialize_success
    (c : CudaContextRef) (n es : Z) (nm : string) (this : CudaArray) (w : World D)
    (r : Reply) (d' : D) (p : CUdeviceptr) :
  pointer this = 0 ->
  drv (driver w) (cuMemAlloc ((n * es) mod 2 ^ 64)) = (r, d') ->
  status r = CUDA_SUCCESS ->
  stored r = Some p ->
  let '(out, this', w') :=
    initialize drv getErrorString (IsCudaContext c) n es nm this w in
  out = Returned tt
  /\ this' = mkCudaArray c p n es true nm
  /\ getContext this' = IsCudaContext c
  /\ w' = after w d' [Select c; Call (cuMemAlloc ((n * es) mod 2 ^ 64)); Deselect].
Proof.
  intros Hp Hd Hs Hst.
  rewrite (initialize_run _ _ c n es nm this w r d' Hp Hd).
  rewrite failed_false by assumption. rewrite Hst.
  repeat split.
Qed.

(** X3.  [initialize] with a context of another platform changes nothing
    and calls nothing: on an uninitialized array the cast throws before the
    first assignment; on an initialized one the misuse test comes first. *)
Theorem initialize_rejects_foreign_context
    (n es : Z) (nm : string) (this : CudaArray) (w : World D) :
  initialize drv getErrorString OtherContext n es nm this w
  = (Thrown (if pointer this =? 0 then bad_cast
             else OpenMMException "CudaArray has already been initialized"),
     this, w).
Proof.
  destruct (Z.eqb_spec (pointer this) 0) as [Hp | Hp].
  - now apply initialize_bad_cast.
  - now apply initialize_twice.
Qed.

(** X4.  The sized constructor reads none of the members it leaves out of
    its initializer list: whatever the storage held, it never reports a
    double initialization and builds the same object, whose members other
    than the handle are the arguments with [ownsMemory] true, also when the
    allocation fails. *)
Theorem sized_constructor_ignores_storage
    (storage1 storage2 : CudaArray) (c : CudaContextRef) (n es : Z) (nm : string)
    (w : World D) :
  CudaArray_sized drv getErrorString storage1 c n es nm w
  = CudaArray_sized drv getErrorString storage2 c n es nm w
  /\ (let this' := snd (fst (CudaArray_sized drv getErrorString storage1 c n es nm w)) in
      context this' = c /\ size this' = n /\ elementSize this' = es
      /\ name this' = nm /\ ownsMemory this' = true)
  /\ fst (fst (CudaArray_sized drv getErrorString storage1 c n es nm w))
     <> Thrown (OpenMMException "CudaArray has already been initialized").
Proof.
  unfold CudaArray_sized.
  destruct (drv (driver w) (cuMemAlloc (to_size_t (n * es)))) as [r d'] eqn:Hd.
  rewrite !(fun this H => initialize_run drv getErrorString c n es nm this w r d' H Hd)
    by reflexivity.
  split; [reflexivity |]. split; [simpl; repeat split |].
  simpl. unfold driverError. destruct (failed r); discriminate.
Qed.

(** X5.  A default-constructed array holds nothing: its destructor does
    nothing, valid context or not; [resize] is rejected as uninitialized;
    and [initialize] is not rejected as a second call. *)
Theorem default_constructed_array_is_inert
    (storage : CudaArray) (c : ComputeContext) (n es : Z) (nm : string) (w : World D) :
  destroy drv getErrorString (CudaArray_default storage) w
  = (Returned tt, CudaArray_default storage, w)
  /\ resize drv getErrorString n (CudaArray_default storage) w
     = (Thrown not_initialized, CudaArray_default storage, w)
  /\ fst (fst (initialize drv getErrorString c n es nm (CudaArray_default storage) w))
     <> Thrown (OpenMMException "CudaArray has already been initialized").
Proof.
  split; [| split].
  - now apply destroy_skips.
  - exact (resize_misuse drv getErrorString n (CudaArray_default storage) w
             (or_introl eq_refl)).
  - destruct c as [c |].
    + destruct (drv (driver w) (cuMemAlloc (to_size_t (n * es)))) as [r d'] eqn:Hd.
      rewrite (fun this H => initialize_run drv getErrorString c n es nm this w r d' H Hd)
        by reflexivity.
      simpl. unfold driverError. destruct (failed r); discriminate.
    + rewrite initialize_bad_cast by reflexivity. discriminate.
Qed.

End Construction.

(** ** Sequences of calls *)

Lemma append_assoc (s1 s2 s3 : string) :
  ((s1 ++ s2) ++ s3 = s1 ++ s2 ++ s3)%string.
Proof. induction s1 as [| a s1 IH]; simpl; [reflexivity | now rewrite IH]. Qed.

Lemma after_after {D} (w : World D) d1 d2 evs1 evs2 :
  after (after w d1 evs1) d2 evs2 = after w d2 (evs1 ++ evs2).
Proof. unfold after. simpl. now rewrite app_assoc. Qed.

Section Sequences.

Context {D : Type}.
Variable drv : Driver D.
Variable getErrorString : CUresult -> string.

Lemma driverError_mentions what nm (result : CUresult) :
  exists text,
    driverError getErrorString what nm result = OpenMMException text
    /\ mentions text nm
    /\ mentions text (string_of_Z result).
Proof.
  unfold driverError. eexists. split; [reflexivity |]. split.
  - apply mentions_middle.
  - exists (what ++ nm ++ ": " ++ getErrorString result ++ " (")%string, ")"%string.
    now rewrite !append_assoc.
Qed.


(** X6.  The destructor frees what [initialize] allocated: after a
    successful [initialize], with the context still valid, the destructor
    asks for one [cuMemFree] of exactly the address the allocation stored,
    each call under its own selector, and the members are untouched by the
    destructor. *)
Theorem destructor_frees_what_initialize_allocated
    (c : CudaContextRef) (n es : Z) (nm : string) (this : CudaArray) (w : World D)
    (r r2 : Reply) (d1 d2 : D) (p : CUdeviceptr) :
  pointer this = 0 ->
  drv (driver w) (cuMemAlloc (to_size_t (n * es))) = (r, d1) ->
  status r = CUDA_SUCCESS ->
  stored r = Some p ->
  p <> 0 ->
  contextIsValid w c = true ->
  drv d1 (cuMemFree p) = (r2, d2) ->
  (initialize drv getErrorString (IsCudaContext c) n es nm;;
   destroy drv getErrorString) this w
  = (if status r2 =? CUDA_SUCCESS then Returned tt
     else Thrown (driverError getErrorString "Error deleting array " nm (status r2)),
     mkCudaArray c p n es true nm,
     after w d2
       [Select c; Call (cuMemAlloc (to_size_t (n * es))); Deselect;
        Select c; Call (cuMemFree p); Deselect]).
Proof.
  intros Hp Hd Hs Hst Hnz Hv Hd2. unfold bind.
  rewrite (initialize_run _ _ c n es nm this w r d1 Hp Hd).
  rewrite failed_false by assumption. rewrite Hst.
  rewrite (destroy_frees drv getErrorString _ _ r2 d2).
  - rewrite after_after. simpl. unfold failed.
    now destruct (status r2 =? CUDA_SUCCESS).
  - unfold must_free. simpl. rewrite Hv.
    apply Z.eqb_neq in Hnz. now rewrite Hnz.
  - exact Hd2.
Qed.


(** X8.  A [resize] whose free succeeds and whose allocation fails (storing
    nothing) is destructive: the old memory is released, the handle is 0,
    the count is already the new one; from there the destructor does
    nothing and a further [resize] is rejected as uninitialized. *)
Theorem resize_alloc_failure_leaves_uninitialized
    (n : Z) (this : CudaArray) (w : World D) (r r2 : Reply) (d1 d2 : D) :
  pointer this <> 0 ->
  ownsMemory this = true ->
  drv (driver w) (cuMemFree (pointer this)) = (r, d1) ->
  status r = CUDA_SUCCESS ->
  drv d1 (cuMemAlloc (to_size_t (n * elementSize this))) = (r2, d2) ->
  status r2 <> CUDA_SUCCESS ->
  stored r2 = None ->
  let '(out, this', w') := resize drv getErrorString n this w in
  out = Thrown (driverError getErrorString "Error creating array " (name this) (status r2))
  /\ this' = mkCudaArray (context this) 0 n (elementSize this) true (name this)
  /\ log w'
     = log w
       ++ [Select (context this); Call (cuMemFree (pointer this));
           Select (context this);
           Call (cuMemAlloc (to_size_t (n * elementSize this)));
           Deselect; Deselect]
  /\ destroy drv getErrorString this' w' = (Returned tt, this', w')
  /\ forall m, resize drv getErrorString m this' w' = (Thrown not_initialized, this', w').
Proof.
  intros Hp Ho Hd Hs Hd2 Hs2 Hst.
  rewrite (resize_free_succeeds _ _ n this w r d1 r2 d2 Hp Ho Hd Hs Hd2).
  rewrite failed_true by assumption. rewrite Hst.
  split; [reflexivity |]. split; [reflexivity |]. split; [reflexivity |]. split.
  - now apply destroy_skips.
  - intros m. apply (resize_misuse drv getErrorString m). now left.
Qed.

(** X15.  An allocation failure does not wedge the array: after an
    [initialize] whose allocation failed (storing nothing) the array is
    still uninitialized, so a second [initialize] is accepted and, when its
    allocation succeeds, builds the array from its own arguments alone. *)
Theorem initialize_retry_after_failure
    (c c2 : CudaContextRef) (n es n2 es2 : Z) (nm nm2 : string)
    (this : CudaArray) (w : World D) (r r2 : Reply) (d1 d2 : D) (p : CUdeviceptr) :
  pointer this = 0 ->
  drv (driver w) (cuMemAlloc (to_size_t (n * es))) = (r, d1) ->
  status r <> CUDA_SUCCESS ->
  stored r = None ->
  drv d1 (cuMemAlloc (to_size_t (n2 * es2))) = (r2, d2) ->
  status r2 = CUDA_SUCCESS ->
  stored r2 = Some p ->
  let '(out1, a1, w1) :=
    initialize drv getErrorString (IsCudaContext c) n es nm this w in
  let '(out2, a2, w2) :=
    initialize drv getErrorString (IsCudaContext c2) n2 es2 nm2 a1 w1 in
  out1 = Thrown (driverError getErrorString "Error creating array " nm (status r))
  /\ pointer a1 = 0
  /\ out2 = Returned tt
  /\ a2 = mkCudaArray c2 p n2 es2 true nm2.
Proof.
  intros Hp Hd Hs Hst Hd2 Hs2 Hst2.
  rewrite (initialize_run _ _ c n es nm this w r d1 Hp Hd).
  rewrite failed_true by assumption. rewrite Hst.
  rewrite (fun a v H1 H2 => initialize_run drv getErrorString c2 n2 es2 nm2 a v r2 d2 H1 H2)
    by (reflexivity || exact Hd2).
  rewrite failed_false by assumption. rewrite Hst2.
  repeat split.
Qed.

End Sequences.

(** ** What the transfers touch *)

Section TransferFrames.

Context {D : Type}.
Variable drv : Driver D.
Variable getErrorString : CUresult -> string.

Lemma uploadSubArray_reads_only t data offset elements blocking :
  reads_only (uploadSubArray drv getErrorString t data offset elements blocking).
Proof.
  intros this w.
  destruct (Z.eq_dec (pointer this) 0) as [Hp | Hp].
  - destruct (transfer_uninitialized drv getErrorString t data offset elements blocking
                (OfCudaArray this) this w Hp) as (H & _ & _).
    rewrite H. split; [reflexivity |]. exists []. simpl. rewrite app_nil_r. auto.
  - destruct (drv (driver w) (upload_call w this data offset elements blocking))
      as [r d'] eqn:Hd.
    rewrite (uploadSubArray_run _ _ t data offset elements blocking this w r d' Hp Hd).
    destruct (out_of_range t this offset elements); simpl.
    + split; [reflexivity |]. exists []. simpl. rewrite app_nil_r. auto.
    + split; [reflexivity |]. eexists. split; [reflexivity |]. simpl. auto.
Qed.

Lemma download_reads_only data blocking :
  reads_only (download drv getErrorString data blocking).
Proof.
  intros this w.
  destruct (Z.eq_dec (pointer this) 0) as [Hp | Hp].
  - destruct (transfer_uninitialized drv getErrorString CSizeT data 0 0 blocking
                (OfCudaArray this) this w Hp) as (_ & H & _).
    rewrite H. split; [reflexivity |]. exists []. simpl. rewrite app_nil_r. auto.
  - destruct (drv (driver w) (download_call w this data blocking)) as [r d'] eqn:Hd.
    rewrite (download_run _ _ data blocking this w r d' Hp Hd). simpl.
    split; [reflexivity |]. eexists. split; [reflexivity |]. simpl. auto.
Qed.

Lemma copyTo_reads_only dest : reads_only (copyTo drv getErrorString dest).
Proof.
  intros this w.
  destruct (Z.eq_dec (pointer this) 0) as [Hp | Hp].
  - destruct (transfer_uninitialized drv getErrorString CSizeT 0 0 0 true
                dest this w Hp) as (_ & _ & H).
    rewrite H. split; [reflexivity |]. exists []. simpl. rewrite app_nil_r. auto.
  - destruct (shape_differs dest this) eqn:Hs.
    + rewrite (copyTo_mismatch _ _ dest this w Hp Hs).
      split; [reflexivity |]. exists []. simpl. rewrite app_nil_r. auto.
    + destruct dest as [cuDest | sz elsz nm].
      * destruct (drv (driver w) (copyTo_call w this cuDest)) as [r d'] eqn:Hd.
        rewrite (copyTo_run _ _ cuDest this w r d' Hp Hs Hd). simpl.
        split; [reflexivity |]. eexists. split; [reflexivity |]. simpl. auto.
      * rewrite (copyTo_foreign _ _ sz elsz nm this w Hp Hs). simpl.
        split; [reflexivity |]. eexists. split; [reflexivity |]. simpl. auto.
Qed.

(** X9.  The transfers leave every member of the array as it was, on the
    return path and on every throwing path, and ask the driver at most
    once: [uploadSubArray], though not declared [const], assigns nothing
    either. *)
Theorem transfers_read_only :
  (forall t data offset elements blocking,
     reads_only (uploadSubArray drv getErrorString t data offset elements blocking))
  /\ (forall data blocking, reads_only (download drv getErrorString data blocking))
  /\ (forall dest, reads_only (copyTo drv getErrorString dest)).
Proof.
  split; [| split].
  - apply uploadSubArray_reads_only.
  - apply download_reads_only.
  - apply copyTo_reads_only.
Qed.

(** X10.  [copyTo] a CUDA array of equal shape asks for one asynchronous
    device-to-device copy of [size * elementSize] bytes (modulo 2^64) from
    the handle to the destination's handle, on the current stream of the
    source's context, right after the unwrap.  Nothing tests the
    destination's handle or context: an uninitialized destination (handle
    0) or one of another context gets the same call. *)
Theorem copyTo_cuda_destination
    (cuDest this : CudaArray) (w : World D) (r : Reply) (d' : D) :
  pointer this <> 0 ->
  size cuDest = size this ->
  elementSize cuDest = elementSize this ->
  drv (driver w)
    (cuMemcpyDtoDAsync (pointer cuDest) (pointer this)
       ((size this * elementSize this) mod 2 ^ 64) (currentStream w (context this)))
  = (r, d') ->
  copyTo drv getErrorString (OfCudaArray cuDest) this w
  = (if status r =? CUDA_SUCCESS then Returned tt
     else Thrown (driverError getErrorString
                    ("Error copying array " ++ name this ++ " to ")%string
                    (name cuDest) (status r)),
     this,
     after w d'
       [Unwrap (OfCudaArray cuDest);
        Call (cuMemcpyDtoDAsync (pointer cuDest) (pointer this)
                ((size this * elementSize this) mod 2 ^ 64)
                (currentStream w (context this)))]).
Proof.
  intros Hp H1 H2 Hd.
  assert (Hs : shape_differs (OfCudaArray cuDest) this = false).
  { unfold shape_differs. simpl. rewrite H1, H2, !Z.eqb_refl. reflexivity. }
  rewrite (copyTo_run _ _ cuDest this w r d' Hp Hs Hd).
  unfold failed, copyTo_call, to_size_t.
  now destruct (status r =? CUDA_SUCCESS).
Qed.

(** X11.  [download] asks for exactly the bytes [initialize] allocated:
    after a successful [initialize] the device-to-host copy reads from the
    address the allocation stored, with the same byte count
    ([size * elementSize] modulo 2^64) that was given to [cuMemAlloc]; the
    copy itself runs with no selector open. *)
Theorem download_reads_what_initialize_allocated
    (c : CudaContextRef) (n es : Z) (nm : string) (data : HostPtr) (blocking : bool)
    (this : CudaArray) (w : World D) (r r2 : Reply) (d1 d2 : D) (p : CUdeviceptr) :
  pointer this = 0 ->
  drv (driver w) (cuMemAlloc (to_size_t (n * es))) = (r, d1) ->
  status r = CUDA_SUCCESS ->
  stored r = Some p ->
  p <> 0 ->
  drv d1 (if blocking then cuMemcpyDtoH data p (to_size_t (n * es))
          else cuMemcpyDtoHAsync data p (to_size_t (n * es)) (currentStream w c))
  = (r2, d2) ->
  (initialize drv getErrorString (IsCudaContext c) n es nm;;
   download drv getErrorString data blocking) this w
  = (if status r2 =? CUDA_SUCCESS then Returned tt
     else Thrown (driverError getErrorString "Error downloading array " nm (status r2)),
     mkCudaArray c p n es true nm,
     after w d2
       [Select c; Call (cuMemAlloc (to_size_t (n * es))); Deselect;
        Call (if blocking then cuMemcpyDtoH data p (to_size_t (n * es))
              else cuMemcpyDtoHAsync data p (to_size_t (n * es)) (currentStream w c))]).
Proof.
  intros Hp Hd Hs Hst Hnz Hd2. unfold bind.
  rewrite (initialize_run _ _ c n es nm this w r d1 Hp Hd).
  rewrite failed_false by assumption. rewrite Hst.
  rewrite (download_run drv getErrorString data blocking _ _ r2 d2).
  - rewrite after_after. unfold download_call, failed. simpl.
    now destruct (status r2 =? CUDA_SUCCESS).
  - exact Hnz.
  - unfold download_call. simpl. exact Hd2.
Qed.

(** X12.  An upload that passes the range test stays inside the
    allocation, as long as the whole buffer is below 2 GiB (so that the
    [int] products do not overflow), the element size is positive and the
    count of elements is not negative: the copy starts at
    [pointer + offset * elementSize], is [elements * elementSize] bytes
    long, and ends no later than [pointer + size * elementSize]. *)
Theorem uploadSubArray_stays_in_allocation
    (t : CType) (data : HostPtr) (offset elements : Z) (blocking : bool)
    (this : CudaArray) (w : World D) :
  0 < pointer this ->
  1 <= elementSize this ->
  size this * elementSize this < 2 ^ 31 ->
  pointer this + size this * elementSize this < 2 ^ 64 ->
  0 <= offset ->
  0 <= elements ->
  offset + elements <= size this ->
  exists out d' dst bytes,
    uploadSubArray drv getErrorString t data offset elements blocking this w
    = (out, this,
       after w d'
         [Call (if blocking then cuMemcpyHtoD dst data bytes
                else cuMemcpyHtoDAsync dst data bytes (currentStream w (context this)))])
    /\ dst = pointer this + offset * elementSize this
    /\ bytes = elements * elementSize this
    /\ pointer this <= dst
    /\ dst + bytes <= pointer this + size this * elementSize this.
Proof.
  intros Hp He Hb Ht Ho Hn Hs.
  assert (Hsz : 0 <= size this < 2 ^ 31) by nia.
  assert (Hoe : 0 <= offset * elementSize this <= size this * elementSize this) by nia.
  assert (Hne : 0 <= elements * elementSize this <= size this * elementSize this) by nia.
  assert (Hsum : offset * elementSize this + elements * elementSize this
                 <= size this * elementSize this) by nia.
  destruct (drv (driver w) (upload_call w this data offset elements blocking))
    as [r d'] eqn:Hd.
  rewrite (uploadSubArray_run _ _ t data offset elements blocking this w r d');
    [| lia | exact Hd].
  rewrite out_of_range_false;
    [| unfold is_int; lia | destruct t; simpl; lia | lia | lia].
  unfold upload_call.
  rewrite !wrap_int_id by (unfold is_int; lia).
  rewrite !to_size_t_id by (unfold is_size_t; lia).
  eexists. exists d'. do 2 eexists.
  split; [destruct blocking; reflexivity |].
  split; [reflexivity |]. split; [reflexivity |]. lia.
Qed.

(** X13.  Every driver failure of a transfer is reported with the buffer
    and the status: when the copy of [download], of an in-range
    [uploadSubArray] or of a [copyTo] between equal shapes returns a
    non-success status, the exception text carries the array's name and the
    status number, and for [copyTo] the destination's name too. *)
Theorem transfer_failures_name_buffer_and_status (this : CudaArray) (w : World D) :
  pointer this <> 0 ->
  (forall data blocking r d',
     drv (driver w) (download_call w this data blocking) = (r, d') ->
     status r <> CUDA_SUCCESS ->
     exists text,
       fst (fst (download drv getErrorString data blocking this w))
       = Thrown (OpenMMException text)
       /\ mentions text (name this) /\ mentions text (string_of_Z (status r)))
  /\ (forall t data offset elements blocking r d',
        out_of_range t this offset elements = false ->
        drv (driver w) (upload_call w this data offset elements blocking) = (r, d') ->
        status r <> CUDA_SUCCESS ->
        exists text,
          fst (fst (uploadSubArray drv getErrorString t data offset elements blocking
                      this w))
          = Thrown (OpenMMException text)
          /\ mentions text (name this) /\ mentions text (string_of_Z (status r)))
  /\ (forall cuDest r d',
        shape_differs (OfCudaArray cuDest) this = false ->
        drv (driver w) (copyTo_call w this cuDest) = (r, d') ->
        status r <> CUDA_SUCCESS ->
        exists text,
          fst (fst (copyTo drv getErrorString (OfCudaArray cuDest) this w))
          = Thrown (OpenMMException text)
          /\ mentions text (name this) /\ mentions text (name cuDest)
          /\ mentions text (string_of_Z (status r))).
Proof.
  intros Hp. split; [| split].
  - intros data blocking r d' Hd Hs.
    rewrite (download_run _ _ data blocking this w r d' Hp Hd).
    rewrite failed_true by assumption. simpl.
    destruct (driverError_mentions getErrorString "Error downloading array "
                (name this) (status r)) as (text & Ht & Hm).
    exists text. now rewrite Ht.
  - intros t data offset elements blocking r d' Hr Hd Hs.
    rewrite (uploadSubArray_run _ _ t data offset elements blocking this w r d' Hp Hd).
    rewrite Hr. rewrite failed_true by assumption. simpl.
    destruct (driverError_mentions getErrorString "Error uploading array "
                (name this) (status r)) as (text & Ht & Hm).
    exists text. now rewrite Ht.
  - intros cuDest r d' Hsh Hd Hs.
    rewrite (copyTo_run _ _ cuDest this w r d' Hp Hsh Hd).
    rewrite failed_true by assumption. cbn [fst].
    destruct (driverError_mentions getErrorString
                ("Error copying array " ++ name this ++ " to ")%string
                (name cuDest) (status r)) as (text & Ht & Hm1 & Hm2).
    exists text. split; [now rewrite Ht |]. split; [| split; assumption].
    unfold driverError in Ht. inversion Ht as [Ht'].
    exists "Error copying array "%string.
    eexists. rewrite !append_assoc. reflexivity.
Qed.

(** X14.  An initialized array owns its memory: both constructors build
    arrays with that property and every member function keeps it, whatever
    the driver answers and on every throwing path. *)
Theorem initialized_arrays_own_their_memory :
  (forall storage, owns_when_initialized (CudaArray_default storage))
  /\ (forall storage c n es nm (w : World D),
        owns_when_initialized
          (snd (fst (CudaArray_sized drv getErrorString storage c n es nm w))))
  /\ (forall this (w : World D),
        owns_when_initialized this ->
        (forall c n es nm,
           owns_when_initialized
             (snd (fst (initialize drv getErrorString c n es nm this w))))
        /\ (forall n,
              owns_when_initialized (snd (fst (resize drv getErrorString n this w))))
        /\ owns_when_initialized (snd (fst (destroy drv getErrorString this w)))
        /\ (forall t data offset elements blocking,
              owns_when_initialized
                (snd (fst (uploadSubArray drv getErrorString t data offset elements
                             blocking this w))))
        /\ (forall data blocking,
              owns_when_initialized
                (snd (fst (download drv getErrorString data blocking this w))))
        /\ (forall dest,
              owns_when_initialized
                (snd (fst (copyTo drv getErrorString dest this w))))).
Proof.
  assert (Hinit : forall c n es nm this (w : World D),
            owns_when_initialized this ->
            owns_when_initialized
              (snd (fst (initialize drv getErrorString c n es nm this w)))).
  { intros c n es nm this w Hinv.
    destruct (Z.eq_dec (pointer this) 0) as [Hp | Hp].
    - destruct c as [c |].
      + destruct (drv (driver w) (cuMemAlloc (to_size_t (n * es)))) as [r d'] eqn:Hd.
        rewrite (initialize_run _ _ c n es nm this w r d' Hp Hd). simpl.
        intros _. reflexivity.
      + rewrite (initialize_bad_cast _ _ n es nm this w Hp). exact Hinv.
    - rewrite (initialize_twice _ _ c n es nm this w Hp). exact Hinv. }
  split; [| split].
  - intros storage Hp. now contradiction Hp.
  - intros storage c n es nm w. unfold CudaArray_sized.
    apply Hinit. intros Hp. now contradiction Hp.
  - intros this w Hinv. split; [| split; [| split; [| split; [| split]]]].
    + intros c n es nm. now apply Hinit.
    + intros n.
      destruct (Z.eq_dec (pointer this) 0) as [Hp | Hp];
        [rewrite resize_misuse by (now left); exact Hinv |].
      destruct (ownsMemory this) eqn:Ho;
        [| rewrite resize_misuse by (now right); exact Hinv].
      destruct (drv (driver w) (cuMemFree (pointer this))) as [r d1] eqn:Hd.
      destruct (Z.eq_dec (status r) CUDA_SUCCESS) as [Hs | Hs].
      * destruct (drv d1 (cuMemAlloc (to_size_t (n * elementSize this))))
          as [r2 d2] eqn:Hd2.
        rewrite (resize_free_succeeds _ _ n this w r d1 r2 d2 Hp Ho Hd Hs Hd2).
        simpl. intros _. reflexivity.
      * rewrite (resize_free_fails _ _ n this w r d1 Hp Ho Hd Hs). exact Hinv.
    + destruct (must_free this w) eqn:E.
      * destruct (drv (driver w) (cuMemFree (pointer this))) as [r d'] eqn:Hd.
        rewrite (destroy_frees _ _ this w r d' E Hd). exact Hinv.
      * rewrite (destroy_skips _ _ this w E). exact Hinv.
    + intros t data offset elements blocking.
      now rewrite (proj1 (uploadSubArray_reads_only t data offset elements blocking this w)).
    + intros data blocking.
      now rewrite (proj1 (download_reads_only data blocking this w)).
    + intros dest. now rewrite (proj1 (copyTo_reads_only dest this w)).
Qed.

End TransferFrames.

(** ** Further runs against the test driver *)

Lemma transfers_reject_uninitialized_witness :
  pointer (CudaArray_default testArray) = 0
  /\ download testDriver testErrorString 100 true (CudaArray_default testArray)
       (testWorld [])
     = (Thrown not_initialized, CudaArray_default testArray, testWorld []).
Proof.
  split; [reflexivity |].
  exact (proj1 (proj2 (transfers_reject_uninitialized testDriver testErrorString CSizeT
                         100 0 1 true (OfCudaArray testArray)
                         (CudaArray_default testArray) (testWorld []) eq_refl))).
Defined.

Lemma initialize_success_witness :
  pointer (CudaArray_default testArray) = 0
  /\ testDriver (driver (testWorld [])) (cuMemAlloc ((5 * 8) mod 2 ^ 64))
     = (mkReply 0 (Some 8192), mkTestDriver [] 8232)
  /\ snd (fst (initialize testDriver testErrorString (IsCudaContext 3%nat) 5 8 "x"
                 (CudaArray_default testArray) (testWorld [])))
     = mkCudaArray 3%nat 8192 5 8 true "x".
Proof.
  split; [reflexivity |]. split; [reflexivity |].
  pose proof (initialize_success testDriver testErrorString 3%nat 5 8 "x"
                (CudaArray_default testArray) (testWorld []) _ _ 8192
                eq_refl eq_refl eq_refl eq_refl) as H.
  destruct (initialize testDriver testErrorString (IsCudaContext 3%nat) 5 8 "x"
              (CudaArray_default testArray) (testWorld [])) as [[out this'] w'].
  destruct H as (_ & H & _). exact H.
Defined.

Lemma destructor_frees_what_initialize_allocated_witness :
  pointer (CudaArray_default testArray) = 0
  /\ 8192 <> 0
  /\ contextIsValid (testWorld []) 3%nat = true
  /\ log (snd ((initialize testDriver testErrorString (IsCudaContext 3%nat) 5 8 "x";;
                destroy testDriver testErrorString)
               (CudaArray_default testArray) (testWorld [])))
     = [Select 3%nat; Call (cuMemAlloc 40); Deselect;
        Select 3%nat; Call (cuMemFree 8192); Deselect].
Proof.
  assert (Hnz : 8192 <> 0) by discriminate.
  split; [reflexivity |]. split; [exact Hnz |]. split; [reflexivity |].
  rewrite (destructor_frees_what_initialize_allocated testDriver testErrorString
             3%nat 5 8 "x" (CudaArray_default testArray) (testWorld [])
             (mkReply 0 (Some 8192)) (mkReply 0 None)
             (mkTestDriver [] 8232) (mkTestDriver [] 8232) 8192
             eq_refl eq_refl eq_refl eq_refl Hnz eq_refl eq_refl).
  reflexivity.
Defined.


Lemma resize_alloc_failure_leaves_uninitialized_witness :
  pointer testArray <> 0
  /\ ownsMemory testArray = true
  /\ testDriver (driver (testWorld [0; 2])) (cuMemFree (pointer testArray))
     = (mkReply 0 None, mkTestDriver [2] 8192)
  /\ testDriver (mkTestDriver [2] 8192)
       (cuMemAlloc (to_size_t (20 * elementSize testArray)))
     = (mkReply 2 None, mkTestDriver [] 8192)
  /\ 2 <> CUDA_SUCCESS
  /\ snd (fst (resize testDriver testErrorString 20 testArray (testWorld [0; 2])))
     = mkCudaArray 0%nat 0 20 4 true "forces".
Proof.
  assert (Hp : pointer testArray <> 0) by discriminate.
  assert (Hs : 2 <> CUDA_SUCCESS) by discriminate.
  split; [exact Hp |]. split; [reflexivity |]. split; [reflexivity |].
  split; [reflexivity |]. split; [exact Hs |].
  pose proof (resize_alloc_failure_leaves_uninitialized testDriver testErrorString 20
                testArray (testWorld [0; 2]) _ _ _ _
                Hp eq_refl eq_refl eq_refl eq_refl Hs eq_refl) as H.
  destruct (resize testDriver testErrorString 20 testArray (testWorld [0; 2]))
    as [[out this'] w'].
  destruct H as (_ & H & _). exact H.
Defined.

Lemma initialize_retry_after_failure_witness :
  pointer (CudaArray_default testArray) = 0
  /\ 2 <> CUDA_SUCCESS
  /\ (let '(_, a1, w1) :=
        initialize testDriver testErrorString (IsCudaContext 3%nat) 5 8 "x"
          (CudaArray_default testArray) (testWorld [2]) in
      snd (fst (initialize testDriver testErrorString (IsCudaContext 1%nat) 6 2 "y"
                  a1 w1)))
     = mkCudaArray 1%nat 8192 6 2 true "y".
Proof.
  assert (Hs : 2 <> CUDA_SUCCESS) by discriminate.
  split; [reflexivity |]. split; [exact Hs |].
  pose proof (initialize_retry_after_failure testDriver testErrorString
                3%nat 1%nat 5 8 6 2 "x" "y" (CudaArray_default testArray)
                (testWorld [2]) (mkReply 2 None) (mkReply 0 (Some 8192))
                (mkTestDriver [] 8192) (mkTestDriver [] 8204) 8192
                eq_refl eq_refl Hs eq_refl eq_refl eq_refl eq_refl) as H.
  destruct (initialize testDriver testErrorString (IsCudaContext 3%nat) 5 8 "x"
              (CudaArray_default testArray) (testWorld [2])) as [[out1 a1] w1].
  destruct (initialize testDriver testErrorString (IsCudaContext 1%nat) 6 2 "y" a1 w1)
    as [[out2 a2] w2].
  destruct H as (_ & _ & _ & H). exact H.
Defined.

Lemma copyTo_cuda_destination_witness :
  pointer testArray <> 0
  /\ pointer (CudaArray_default testArray) = 0
  /\ size (CudaArray_default testArray) = size testArray
  /\ elementSize (CudaArray_default testArray) = elementSize testArray
  /\ log (snd (copyTo testDriver testErrorString
                 (OfCudaArray (CudaArray_default testArray)) testArray (testWorld [])))
     = [Unwrap (OfCudaArray (CudaArray_default testArray));
        Call (cuMemcpyDtoDAsync 0 4096 40 7)].
Proof.
  assert (Hp : pointer testArray <> 0) by discriminate.
  split; [exact Hp |]. split; [reflexivity |]. split; [reflexivity |].
  split; [reflexivity |].
  rewrite (copyTo_cuda_destination testDriver testErrorString
             (CudaArray_default testArray) testArray (testWorld [])
             (mkReply 0 None) (mkTestDriver [] 8192) Hp eq_refl eq_refl eq_refl).
  reflexivity.
Defined.

Lemma download_reads_what_initialize_allocated_witness :
  pointer (CudaArray_default testArray) = 0
  /\ 8192 <> 0
  /\ log (snd ((initialize testDriver testErrorString (IsCudaContext 3%nat) 5 8 "x";;
                download testDriver testErrorString 100 false)
               (CudaArray_default testArray) (testWorld [])))
     = [Select 3%nat; Call (cuMemAlloc 40); Deselect;
        Call (cuMemcpyDtoHAsync 100 8192 40 7)].
Proof.
  assert (Hnz : 8192 <> 0) by discriminate.
  split; [reflexivity |]. split; [exact Hnz |].
  rewrite (download_reads_what_initialize_allocated testDriver testErrorString
             3%nat 5 8 "x" 100 false (CudaArray_default testArray) (testWorld [])
             (mkReply 0 (Some 8192)) (mkReply 0 None)
             (mkTestDriver [] 8232) (mkTestDriver [] 8232) 8192
             eq_refl eq_refl eq_refl eq_refl Hnz eq_refl).
  reflexivity.
Defined.

Lemma uploadSubArray_stays_in_allocation_witness :
  0 < pointer testArray
  /\ 1 <= elementSize testArray
  /\ size testArray * elementSize testArray < 2 ^ 31
  /\ pointer testArray + size testArray * elementSize testArray < 2 ^ 64
  /\ 2 + 3 <= size testArray
  /\ exists out d' dst bytes,
       uploadSubArray testDriver testErrorString CSizeT 100 2 3 true testArray
         (testWorld [])
       = (out, testArray, after (testWorld []) d' [Call (cuMemcpyHtoD dst 100 bytes)])
       /\ dst = pointer testArray + 2 * elementSize testArray
       /\ bytes = 3 * elementSize testArray
       /\ pointer testArray <= dst
       /\ dst + bytes <= pointer testArray + size testArray * elementSize testArray.
Proof.
  assert (H1 : 0 < pointer testArray) by (simpl; lia).
  assert (H2 : 1 <= elementSize testArray) by (simpl; lia).
  assert (H3 : size testArray * elementSize testArray < 2 ^ 31) by (simpl; lia).
  assert (H4 : pointer testArray + size testArray * elementSize testArray < 2 ^ 64)
    by (simpl; lia).
  assert (H5 : 2 + 3 <= size testArray) by (simpl; lia).
  split; [exact H1 |]. split; [exact H2 |]. split; [exact H3 |].
  split; [exact H4 |]. split; [exact H5 |].
  apply (uploadSubArray_stays_in_allocation testDriver testErrorString CSizeT 100 2 3
           true testArray (testWorld []) H1 H2 H3 H4); lia.
Defined.

Lemma transfer_failures_name_buffer_and_status_witness :
  pointer testArray <> 0
  /\ 700 <> CUDA_SUCCESS
  /\ exists text,
       fst (fst (download testDriver testErrorString 100 true testArray (testWorld [700])))
       = Thrown (OpenMMException text)
       /\ mentions text (name testArray)
       /\ mentions text (string_of_Z 700).
Proof.
  assert (Hp : pointer testArray <> 0) by discriminate.
  assert (Hs : 700 <> CUDA_SUCCESS) by discriminate.
  split; [exact Hp |]. split; [exact Hs |].
  exact (proj1 (transfer_failures_name_buffer_and_status testDriver testErrorString
                  testArray (testWorld [700]) Hp)
           100 true (mkReply 700 None) (mkTestDriver [] 8192) eq_refl Hs).
Defined.
